(** * Resume analysis pipeline of the Career-Craft backend

    A shallow embedding of [ats_utils/ats_ai.py], [ats_utils/extract_any.py]
    and [ats_utils/extract_pdf.py], and the properties the specification
    states about them.

    Conventions of the embedding.
    - A Python [str] is a Rocq [string]; characters outside ASCII are carried
      as they stand and are neither white space nor cased.  The string
      methods the code calls ([strip], [split], [lower], [find], [rfind],
      slicing) are written out below on that reading.
    - A value decoded from JSON (and, more generally, any Python value the
      analyser handles) is a [pyval]; a [dict] keeps its insertion order, as
      Python's does, and is an association list updated in place.
    - Library and outside-world behaviour ([json.loads], [str()] of a decoded
      value, the HTTP endpoint, the file system and the document readers)
      are parameters of the sections that use them; reference instances are
      given afterwards so that every definition can be run. *)

From Stdlib Require Import String Ascii List ZArith Bool Lia Arith.
From Stdlib Require Import Floats.SpecFloat DecimalString.
Import ListNotations.
Local Open Scope string_scope.
Local Open Scope list_scope.

Local Set Warnings "-register-all".

(* ===================================================================== *)
(** ** Python string methods *)
(* ===================================================================== *)

Module PyStr.

(** [str.isspace] on one ASCII character: TAB, LF, VT, FF, CR, the four
    separators FS, GS, RS, US, and the blank. *)
Definition isspace (c : ascii) : bool :=
  let n := nat_of_ascii c in
  ((9 <=? n)%nat && (n <=? 13)%nat) || ((28 <=? n)%nat && (n <=? 32)%nat).

(** [str.lower] on one ASCII character. *)
Definition lower_char (c : ascii) : ascii :=
  let n := nat_of_ascii c in
  if ((65 <=? n)%nat && (n <=? 90)%nat)%bool then ascii_of_nat (n + 32) else c.

Fixpoint lower (s : string) : string :=
  match s with
  | EmptyString => EmptyString
  | String c r => String (lower_char c) (lower r)
  end.

Fixpoint lstrip (s : string) : string :=
  match s with
  | EmptyString => EmptyString
  | String c r => if isspace c then lstrip r else s
  end.

Fixpoint rstrip (s : string) : string :=
  match s with
  | EmptyString => EmptyString
  | String c r =>
      match rstrip r with
      | EmptyString => if isspace c then EmptyString else String c EmptyString
      | r' => String c r'
      end
  end.

(** [s.strip()] *)
Definition strip (s : string) : string := rstrip (lstrip s).

(** [s.split()]: maximal runs of characters that are not white space.
    [tok] is the run being read, most recent character first. *)
Fixpoint rev_string (acc s : string) : string :=
  match s with
  | EmptyString => acc
  | String c r => rev_string (String c acc) r
  end.

Definition flush (tok : string) : list string :=
  match tok with
  | EmptyString => []
  | _ => [rev_string EmptyString tok]
  end.

Fixpoint split_from (tok s : string) : list string :=
  match s with
  | EmptyString => flush tok
  | String c r =>
      if isspace c then flush tok ++ split_from EmptyString r
      else split_from (String c tok) r
  end.

Definition split (s : string) : list string := split_from EmptyString s.

(** [s.find(c)] for a one-character needle: index of the first
    occurrence, or -1. *)
Fixpoint find (c : ascii) (s : string) : Z :=
  match s with
  | EmptyString => (-1)%Z
  | String a r =>
      if Ascii.eqb a c then 0%Z
      else let i := find c r in
           if (i =? -1)%Z then (-1)%Z else (i + 1)%Z
  end.

(** [s.rfind(c)]: index of the last occurrence, or -1. *)
Fixpoint rfind (c : ascii) (s : string) : Z :=
  match s with
  | EmptyString => (-1)%Z
  | String a r =>
      let i := rfind c r in
      if (i =? -1)%Z then (if Ascii.eqb a c then 0%Z else (-1)%Z)
      else (i + 1)%Z
  end.

(** [s[i:j]] for indices that are not negative. *)
Definition slice (i j : Z) (s : string) : string :=
  substring (Z.to_nat i) (Z.to_nat (j - i)) s.

(** [w in words] for a list of strings. *)
Definition mem (w : string) (words : list string) : bool :=
  existsb (String.eqb w) words.

(** [s.split(sep)] for a one-character separator; never empty. *)
Fixpoint split_on (sep : ascii) (s : string) : list string :=
  match s with
  | EmptyString => [EmptyString]
  | String c r =>
      if Ascii.eqb c sep then EmptyString :: split_on sep r
      else match split_on sep r with
           | h :: t => String c h :: t
           | [] => [String c EmptyString]
           end
  end.

(** [sep.join(parts)] *)
Fixpoint join (sep : string) (parts : list string) : string :=
  match parts with
  | [] => EmptyString
  | [x] => x
  | x :: rest => (x ++ sep ++ join sep rest)%string
  end.

Definition newline : string := String (ascii_of_nat 10) EmptyString.

(** The literals of the source that contain double quotes are written
    below with apostrophes in their place (the source texts contain no
    apostrophe); [requote] puts the double quotes back. *)
Definition requote_char (c : ascii) : ascii :=
  if Ascii.eqb c (ascii_of_nat 39) then ascii_of_nat 34 else c.

Fixpoint requote (s : string) : string :=
  match s with
  | EmptyString => EmptyString
  | String c r => String (requote_char c) (requote r)
  end.

(** Truth value of a string: the empty string is false. *)
Definition nonempty (s : string) : bool :=
  match s with EmptyString => false | _ => true end.

End PyStr.

(** [c in s] for a character. *)
Fixpoint has_char (c : ascii) (s : string) : bool :=
  match s with
  | EmptyString => false
  | String a r => Ascii.eqb a c || has_char c r
  end.

(* ===================================================================== *)
(** ** Python values and dictionaries *)
(* ===================================================================== *)

(** What [json.loads] can return: [None], [bool], [int], [float], [str],
    [list] and [dict] with string keys. *)
Inductive pyval : Type :=
| PNone
| PBool (b : bool)
| PInt (n : Z)
| PFloat (f : spec_float)
| PStr (s : string)
| PList (l : list pyval)
| PDict (d : list (string * pyval)).

Definition dict := list (string * pyval).

(** [k in d] and [d.get(k)] *)
Fixpoint dict_lookup (k : string) (d : dict) : option pyval :=
  match d with
  | [] => None
  | (k', v) :: r => if String.eqb k k' then Some v else dict_lookup k r
  end.

Definition dict_has (k : string) (d : dict) : bool :=
  match dict_lookup k d with Some _ => true | None => false end.

Definition dict_get (k : string) (d : dict) : pyval :=
  match dict_lookup k d with Some v => v | None => PNone end.

(** [d[k] = v]: an existing key keeps its place, a new key goes last. *)
Fixpoint dict_set (k : string) (v : pyval) (d : dict) : dict :=
  match d with
  | [] => [(k, v)]
  | (k', v') :: r =>
      if String.eqb k k' then (k', v) :: r else (k', v') :: dict_set k v r
  end.

(** Truth value of a Python value, as [if x:] and [x or y] see it. *)
Definition truthy (v : pyval) : bool :=
  match v with
  | PNone => false
  | PBool b => b
  | PInt n => negb (n =? 0)%Z
  | PFloat (S754_zero _) => false
  | PFloat _ => true
  | PStr s => PyStr.nonempty s
  | PList l => match l with [] => false | _ => true end
  | PDict d => match d with [] => false | _ => true end
  end.

(** [a or b] *)
Definition py_or (a b : pyval) : pyval := if truthy a then a else b.

(** [isinstance(v, dict)] and [v is None] *)
Definition is_dict (v : pyval) : bool :=
  match v with PDict _ => true | _ => false end.

Definition is_none (v : pyval) : bool :=
  match v with PNone => true | _ => false end.

(** Exceptions the modelled code can meet; every handler in the code is
    [except Exception], so only the fact of raising matters downstream. *)
Inductive exn : Type :=
| RuntimeError (msg : string)
| RequestException
| AttributeError
| KeyError (k : string)
| TypeError
| IndexError
| IOError.

Inductive outcome (A : Type) : Type :=
| Ok (a : A)
| Raise (e : exn).
Arguments Ok {A} a.
Arguments Raise {A} e.

Definition obind {A B} (x : outcome A) (f : A -> outcome B) : outcome B :=
  match x with Ok a => f a | Raise e => Raise e end.

Notation "'let?' x ':=' c 'in' k" := (obind c (fun x => k))
  (at level 10, x name, c at level 100, k at level 200).

(** [d[k]] as an expression: [KeyError] when the key is absent. *)
Definition subscript (d : dict) (k : string) : outcome pyval :=
  match dict_lookup k d with
  | Some v => Ok v
  | None => Raise (KeyError k)
  end.

(* ===================================================================== *)
(** ** The schema normaliser *)
(* ===================================================================== *)

Definition extracted_defaults : dict :=
  [ ("name", PStr "");
    ("email", PStr "");
    ("position", PStr "");
    ("experience", PStr "Fresher");
    ("skills", PList []) ].

Definition skills_relevance_defaults : dict :=
  [ ("matched", PList []);
    ("missing", PList []) ].

Definition defaults : dict :=
  [ ("score", PInt 50);
    ("matched_keywords", PList []);
    ("missing_keywords", PList []);
    ("formatting_issues", PList []);
    ("suggestions", PList []);
    ("strengths", PList []);
    ("extracted", PDict extracted_defaults);
    ("grammatical_errors", PList []);
    ("professional_tone", PStr "");
    ("unnecessary_info", PList []);
    ("experience_relevance", PStr "");
    ("skills_relevance", PDict skills_relevance_defaults) ].

(** One round of [if key not in data: data[key] = val]. *)
Definition fill_key (data : dict) (kv : string * pyval) : dict :=
  if dict_has (fst kv) data then data else dict_set (fst kv) (snd kv) data.

(** [for key, val in dflt.items(): if key not in data: data[key] = val] *)
Definition fill_defaults (dflt data : dict) : dict :=
  fold_left fill_key dflt data.

(** [if not isinstance(data.get(k), dict): data[k] = {}] *)
Definition ensure_dict (k : string) (data : dict) : dict :=
  if is_dict (dict_get k data) then data else dict_set k (PDict []) data.

(** [data[outer][k] = v]: the inner dictionary is updated where it sits.
    Subscripting raises [KeyError] when [outer] is absent, and assigning
    into something that is not a dictionary raises [TypeError]. *)
Definition set_nested (outer k : string) (v : pyval) (data : dict)
  : outcome dict :=
  let? sub := subscript data outer in
  match sub with
  | PDict e => Ok (dict_set outer (PDict (dict_set k v e)) data)
  | _ => Raise TypeError
  end.

(** One round of
    [if sub_key not in data[outer]: data[outer][sub_key] = sub_val].
    The code reaches this only after [ensure_dict outer]; on anything but
    a dictionary the round is modelled as a [TypeError]. *)
Definition fill_nested_key (outer : string) (data : dict)
  (kv : string * pyval) : outcome dict :=
  let? sub := subscript data outer in
  match sub with
  | PDict e =>
      if dict_has (fst kv) e then Ok data
      else set_nested outer (fst kv) (snd kv) data
  | _ => Raise TypeError
  end.

Fixpoint fill_nested (outer : string) (dflt : dict) (data : dict)
  : outcome dict :=
  match dflt with
  | [] => Ok data
  | kv :: rest =>
      let? data' := fill_nested_key outer data kv in
      fill_nested outer rest data'
  end.

(** The three assignments made when there is no job description. *)
Definition clear_jd_fields (data : dict) : outcome dict :=
  let data1 := dict_set "missing_keywords" (PList []) data in
  let? data2 := set_nested "skills_relevance" "missing" (PList []) data1 in
  set_nested "extracted" "position" (PStr "") data2.

Definition _merge_defaults (data : pyval) (jd_present : bool)
  : outcome pyval :=
  let data0 := match data with PDict d => d | _ => [] end in
  let data1 := fill_defaults defaults data0 in
  let data2 := ensure_dict "extracted" data1 in
  let data3 := ensure_dict "skills_relevance" data2 in
  let? data4 := fill_nested "extracted" extracted_defaults data3 in
  let? data5 := fill_nested "skills_relevance" skills_relevance_defaults data4 in
  let? data6 := if negb jd_present then clear_jd_fields data5 else Ok data5 in
  Ok (PDict data6).

(* ===================================================================== *)
(** ** Prompts *)
(* ===================================================================== *)

Definition BASE_JSON : string :=
  PyStr.requote "
{
  'score': 0,
  'matched_keywords': [],
  'missing_keywords': [],
  'formatting_issues': [],
  'suggestions': [],
  'strengths': [],

  'extracted': {
      'name': '',
      'email': '',
      'position': '',
      'experience': 'Fresher',
      'skills': []
  },

  'grammatical_errors': [],
  'professional_tone': '',
  'unnecessary_info': [],
  'experience_relevance': '',
  'skills_relevance': {
      'matched': [],
      'missing': []
  }
}
".

Definition build_resume_only_prompt (resume_text : string) : string :=
  (PyStr.requote "
You are an expert Applicant Tracking System (ATS). Only the resume is provided (NO job description).

Return ONLY valid JSON with no extra text. It MUST match this schema:

")
  ++ BASE_JSON
  ++ (PyStr.requote "

========================
SCORING (RESUME ONLY)
========================
- 'score': integer 0–100.
- This score reflects overall resume quality for generic tech/software roles.
- Use BALANCED, REALISTIC scoring:
    • Strong fresher resume: 65–80
    • Average: 45–65
    • Weak: below 45

========================
KEYWORDS & SKILLS
========================
- 'matched_keywords': skills present in resume
- 'missing_keywords': MUST be []
- 'skills_relevance.missing': MUST be []
- 'skills_relevance.matched': skills in resume

========================
EXTRACTED SECTION
========================
- 'extracted.name': candidate name
- 'extracted.email': candidate email
- 'extracted.position': '' (NO JD)
- 'extracted.experience': 'Fresher' or number of years
- 'extracted.skills': 5–10 skills

========================
GRAMMAR vs FORMATTING
========================
- real grammar issues only
- spacing/layout issues belong in formatting_issues

========================
RESUME BELOW
========================

")
  ++ resume_text
  ++ (PyStr.requote "
").

Definition build_resume_jd_prompt (resume_text jd : string) : string :=
  (PyStr.requote "
You are an Applicant Tracking System (ATS) evaluating ONE candidate for ONE specific job.

Return ONLY valid JSON with no extra text. Use this schema:

")
  ++ BASE_JSON
  ++ (PyStr.requote "

========================
SCORING WITH JOB DESCRIPTION
========================
- 'score': 0–100 based on resume match to JD
- realistic ATS scoring required:
    • Excellent: 80–95
    • Good: 65–80
    • Average: 45–65
    • Poor: <45

========================
MATCHED & MISSING KEYWORDS
========================
- matched_keywords = skills in BOTH resume & JD
- missing_keywords = required in JD but missing in resume
- skills_relevance must match this logic

========================
POSITION & EXPERIENCE
========================
- extracted.position = main JD role
- experience mapping same as before

========================

RESUME:
")
  ++ resume_text
  ++ (PyStr.requote "

JOB DESCRIPTION:
")
  ++ jd
  ++ (PyStr.requote "
").

(* ===================================================================== *)
(** ** The analyser *)
(* ===================================================================== *)

(** The analyser talks to one outside service.  A computation carries the
    list of prompts posted so far (oldest first) and either returns or
    raises; the list survives a raise, since a request that failed was
    still made.  The calls to [print] are not modelled. *)
Definition M (A : Type) : Type := list string -> outcome A * list string.

Definition ret {A} (a : A) : M A := fun h => (Ok a, h).

Definition bind {A B} (m : M A) (f : A -> M B) : M B :=
  fun h => match m h with
           | (Ok a, h') => f a h'
           | (Raise e, h') => (Raise e, h')
           end.

Definition raise {A} (e : exn) : M A := fun h => (Raise e, h).

Definition lift {A} (x : outcome A) : M A := fun h => (x, h).

(** [try: body  except Exception: handler] *)
Definition try_except {A} (body : M A) (handler : exn -> M A) : M A :=
  fun h => match body h with
           | (Ok a, h') => (Ok a, h')
           | (Raise e, h') => handler e h'
           end.

Notation "'let*' x ':=' c 'in' k" := (bind c (fun x => k))
  (at level 10, x name, c at level 100, k at level 200).

(** [obj.get(k)]: only a dictionary has the method. *)
Definition method_get (obj : pyval) (k : string) : outcome pyval :=
  match obj with
  | PDict d => Ok (dict_get k d)
  | _ => Raise AttributeError
  end.

(** [v[0]].  A decoded dictionary has string keys only, so the integer 0
    is never one of them. *)
Definition first_item (v : pyval) : outcome pyval :=
  match v with
  | PList (x :: _) => Ok x
  | PList [] => Raise IndexError
  | PStr (String c _) => Ok (PStr (String c EmptyString))
  | PStr EmptyString => Raise IndexError
  | PDict _ => Raise (KeyError "0")
  | _ => Raise TypeError
  end.

Definition vocabulary : list string :=
  ["python"; "java"; "sql"; "javascript"; "react"; "aws"; "docker"; "c++"; "c"].

Definition str_list (l : list string) : pyval := PList (map PStr l).

(** The dictionary [fallback] built at the end of [_analyze_resume_only]. *)
Definition fallback (resume_text : string) : pyval :=
  let words := PyStr.split (PyStr.lower resume_text) in
  let skills := filter (fun w => PyStr.mem w words) vocabulary in
  PDict
    [ ("score", PInt 55);
      ("matched_keywords", str_list (firstn 5 skills));
      ("missing_keywords", PList []);
      ("formatting_issues", PList []);
      ("suggestions",
        str_list ["Use relevant keywords from job description";
                  "Improve bullet clarity"]);
      ("strengths", str_list ["Education present"; "Projects listed"]);
      ("extracted",
        PDict [ ("name", PStr "");
                ("email", PStr "");
                ("position", PStr "");
                ("experience",
                  PStr (if (40 <? length words)%nat then "1-2 years"
                        else "Fresher"));
                ("skills", str_list (firstn 5 skills)) ]);
      ("grammatical_errors", PList []);
      ("professional_tone", PStr "");
      ("unnecessary_info", PList []);
      ("experience_relevance", PStr "");
      ("skills_relevance",
        PDict [ ("matched", str_list (firstn 3 skills));
                ("missing", PList []) ]);
      ("error", PStr "fallback_used") ].

Section Analyzer.

(** [json.loads] on a string: [None] when it raises. *)
Variable json_loads : string -> option pyval.
(** [str(v)] of a decoded value. *)
Variable py_str : pyval -> string.
(** The credential read from the environment when the module loads. *)
Variable API_KEY : option string.
(** The chat-completions endpoint: given the prompts posted before and
    the prompt posted now, the decoded body of the reply, or [None] when
    [requests.post], [raise_for_status] or [resp.json()] raises.  URL,
    model name, token budget, temperature and bearer header are the same
    for every request of a process. *)
Variable http_post : list string -> string -> option pyval.

(** [if API_KEY:] *)
Definition api_key_set : bool :=
  match API_KEY with
  | Some k => PyStr.nonempty k
  | None => false
  end.

Definition _safe_parse_json (raw : pyval) : outcome pyval :=
  match raw with
  | PNone => Ok PNone
  | PStr raw0 =>
      let raw := PyStr.strip raw0 in
      match json_loads raw with
      | Some v => Ok v
      | None =>
          let start := PyStr.find "{" raw in
          let end_ := PyStr.rfind "}" raw in
          if (negb (start =? -1) && negb (end_ =? -1) && (start <? end_))%Z
          then match json_loads (PyStr.slice start (end_ + 1) raw) with
               | Some v => Ok v
               | None => Ok PNone
               end
          else Ok PNone
      end
  | _ => Raise AttributeError
  end.

Definition _call_model_chat (prompt : string) : M pyval :=
  fun h =>
    if negb api_key_set
    then (Raise (RuntimeError "No GROQ API key configured"), h)
    else match http_post h prompt with
         | Some body => (Ok body, h ++ [prompt])
         | None => (Raise RequestException, h ++ [prompt])
         end.

(** The body of the [try] in [_model_response_to_text]; [None] inside
    [Ok] stands for reaching its last line. *)
Definition content_of_choices (response : pyval) : outcome (option pyval) :=
  let? c := method_get response "choices" in
  let choices := py_or c (PList []) in
  if truthy choices then
    let? first := first_item choices in
    let? m := method_get first "message" in
    let msg := py_or m (PDict []) in
    let? mc := method_get msg "content" in
    let? content :=
      if truthy mc then Ok mc
      else let? t := method_get first "text" in Ok (py_or t (PStr "")) in
    Ok (if truthy content then Some content else None)
  else Ok None.

Definition _model_response_to_text (response : pyval) : pyval :=
  let attempt :=
    let? early := content_of_choices response in
    match early with
    | Some content => Ok content
    | None =>
        let? o := method_get response "output" in
        if truthy o then Ok o
        else let? r := method_get response "result" in
             Ok (py_or r (PStr (py_str response)))
    end in
  match attempt with
  | Ok text => text
  | Raise _ => PStr (py_str response)
  end.

Definition _analyze_with_model (prompt resume_text : string)
  (jd_present : bool) : M (pyval * pyval) :=
  let* raw_resp := _call_model_chat prompt in
  let text := _model_response_to_text raw_resp in
  let* parsed := lift (_safe_parse_json text) in
  let* parsed :=
    if is_none parsed then lift (_safe_parse_json text) else ret parsed in
  if is_none parsed then ret (PNone, raw_resp)
  else
    let* parsed := lift (_merge_defaults parsed jd_present) in
    ret (parsed, raw_resp).

(** [if API_KEY: try: ... if parsed is not None: return parsed
    except Exception: ...]: [Some] is the value returned from inside the
    [try], [None] is falling through to the code after it. *)
Definition model_attempt (prompt resume_text : string) (jd_present : bool)
  : M (option pyval) :=
  if api_key_set then
    try_except
      (let* pr := _analyze_with_model prompt resume_text jd_present in
       ret (if is_none (fst pr) then None else Some (fst pr)))
      (fun _ => ret None)
  else ret None.

Definition _analyze_resume_only (resume_text : string) : M pyval :=
  let prompt := build_resume_only_prompt resume_text in
  let* r := model_attempt prompt resume_text false in
  match r with
  | Some parsed => ret parsed
  | None => lift (_merge_defaults (fallback resume_text) false)
  end.

(** [job_description] may be [None]; [(job_description or "")] is then
    the empty string, as it is for an empty one. *)
Definition analyze_resume_with_ai (resume_text : string)
  (job_description : option string) : M pyval :=
  let jd := PyStr.strip (match job_description with
                         | Some s => s
                         | None => ""
                         end) in
  if negb (PyStr.nonempty jd) then _analyze_resume_only resume_text
  else
    let prompt := build_resume_jd_prompt resume_text jd in
    let* r := model_attempt prompt resume_text true in
    match r with
    | Some parsed => ret parsed
    | None => _analyze_resume_only resume_text
    end.

(** What the recovery of a reply gives the caller: the parsed value, or
    nothing when the request failed, when the text could not be parsed,
    when it parsed to [None], or when handling it raised. *)
Definition recovered (reply : option pyval) : option pyval :=
  match reply with
  | None => None
  | Some body =>
      match _safe_parse_json (_model_response_to_text body) with
      | Ok v => if is_none v then None else Some v
      | Raise _ => None
      end
  end.


End Analyzer.


(* ===================================================================== *)
(** ** The document text extractors *)
(* ===================================================================== *)

(** One page as PyMuPDF shows it: [get_text("text")], and
    [get_text("blocks")], which is [None] here when it is not a list; a
    block is a tuple, given as the list of its items. *)
Record fitz_page : Type := {
  page_text : string;
  page_blocks : option (list (list pyval))
}.

(** [" ".join([blk[4] for blk in blocks if len(blk) > 4])]; joining
    something that is not a string raises [TypeError]. *)
Fixpoint block_texts (blocks : list (list pyval)) : outcome (list string) :=
  match blocks with
  | [] => Ok []
  | blk :: rest =>
      if (4 <? length blk)%nat then
        match nth 4 blk PNone with
        | PStr t => let? ts := block_texts rest in Ok (t :: ts)
        | _ => Raise TypeError
        end
      else block_texts rest
  end.

Section Extractor.

(** [os.path.splitext] and [os.path.exists]. *)
Variable os_path_splitext : string -> string * string.
Variable os_path_exists : string -> bool.
(** [page.extract_text()] of every page PyPDF2 reads from the file, or the
    exception raised by [open] or by the reader. *)
Variable pypdf2_page_texts : string -> outcome (list (option string)).
(** [docx2txt.process] *)
Variable docx2txt_process : string -> outcome string.
(** The pages [fitz.open] yields, or the exception it raises. *)
Variable fitz_pages : string -> outcome (list fitz_page).
(** [p.text] of every paragraph of [docx.Document(path)]. *)
Variable docx_paragraphs : string -> outcome (list string).
(** [pdfminer.high_level.extract_text] *)
Variable pdfminer_extract_text : string -> outcome string.
(** [str(e)] of an exception. *)
Variable exn_str : exn -> string.

Definition extract_pdf (path : string) : outcome string :=
  let? pages := pypdf2_page_texts path in
  Ok (fold_left
        (fun text page =>
           (text ++ match page with Some t => t | None => "" end)%string)
        pages "").

Definition extract_docx (path : string) : outcome string :=
  docx2txt_process path.

Definition extract_any (path : string) : outcome string :=
  let ext := PyStr.lower (snd (os_path_splitext path)) in
  if String.eqb ext ".pdf" then extract_pdf path
  else if PyStr.mem ext [".docx"] then extract_docx path
  else Ok "Unsupported file format".

(** The text one page adds in [extract_text_from_file]. *)
Definition fitz_page_text (page : fitz_page) : outcome string :=
  let? t :=
    if negb (PyStr.nonempty (PyStr.strip (page_text page))) then
      match page_blocks page with
      | Some blocks =>
          let? ts := block_texts blocks in Ok (PyStr.join " " ts)
      | None => Ok (page_text page)
      end
    else Ok (page_text page) in
  Ok (t ++ PyStr.newline)%string.

Fixpoint fitz_loop (text : string) (pages : list fitz_page) : outcome string :=
  match pages with
  | [] => Ok text
  | page :: rest =>
      let? t := fitz_page_text page in
      fitz_loop (text ++ t)%string rest
  end.

Definition extract_text_from_file (file_path : string) : outcome string :=
  if negb (os_path_exists file_path) then Ok ""
  else
    let ext := PyStr.lower (last (PyStr.split_on "." file_path) "") in
    if String.eqb ext "pdf" then
      let? pages := fitz_pages file_path in
      let? text := fitz_loop "" pages in
      Ok (PyStr.strip text)
    else if String.eqb ext "docx" then
      let? paragraphs := docx_paragraphs file_path in
      let lines :=
        map PyStr.strip
            (filter (fun p => PyStr.nonempty (PyStr.strip p)) paragraphs) in
      Ok (PyStr.join PyStr.newline lines)
    else Ok "".

(** [extract_text_from_pdf] of [extract_pdf.py] *)
Definition extract_text_from_pdf (file_path : string) : string :=
  match pdfminer_extract_text file_path with
  | Ok text => PyStr.strip text
  | Raise e => ("[ERROR extracting PDF] " ++ exn_str e)%string
  end.

End Extractor.

(* ===================================================================== *)
(** ** Reference instances of the library parameters *)
(* ===================================================================== *)

(** The sections above hold for every [json.loads], [str] and
    [os.path.splitext].  The instances below let the definitions run on
    concrete inputs.  [Ref.json_loads] reads the JSON grammar as Python's
    decoder does, with two restrictions: a number with a fraction or an
    exponent, and a [\u] escape, are not read (the result is [None]). *)
Module Ref.

Definition dquote : ascii := ascii_of_nat 34.
Definition backslash : ascii := ascii_of_nat 92.

Definition is_json_ws (c : ascii) : bool :=
  let n := nat_of_ascii c in
  (n =? 32)%nat || (n =? 9)%nat || (n =? 10)%nat || (n =? 13)%nat.

Fixpoint skip_ws (s : string) : string :=
  match s with
  | EmptyString => EmptyString
  | String c r => if is_json_ws c then skip_ws r else s
  end.

(** [s] without the prefix [p], when it starts with it. *)
Fixpoint strip_prefix (p s : string) : option string :=
  match p, s with
  | EmptyString, _ => Some s
  | String a p', String b s' =>
      if Ascii.eqb a b then strip_prefix p' s' else None
  | String _ _, EmptyString => None
  end.

Definition unescape (c : ascii) : option ascii :=
  if Ascii.eqb c dquote then Some dquote
  else if Ascii.eqb c backslash then Some backslash
  else if Ascii.eqb c "/" then Some "/"%char
  else if Ascii.eqb c "b" then Some (ascii_of_nat 8)
  else if Ascii.eqb c "f" then Some (ascii_of_nat 12)
  else if Ascii.eqb c "n" then Some (ascii_of_nat 10)
  else if Ascii.eqb c "r" then Some (ascii_of_nat 13)
  else if Ascii.eqb c "t" then Some (ascii_of_nat 9)
  else None.

(** The characters of a string literal after its opening quote, and what
    follows its closing quote. *)
Fixpoint scan_string (s : string) : option (string * string) :=
  match s with
  | EmptyString => None
  | String c r =>
      if Ascii.eqb c dquote then Some (EmptyString, r)
      else if Ascii.eqb c backslash then
        match r with
        | String e r' =>
            match unescape e, scan_string r' with
            | Some ch, Some (t, rest) => Some (String ch t, rest)
            | _, _ => None
            end
        | EmptyString => None
        end
      else if (nat_of_ascii c <? 32)%nat then None
      else match scan_string r with
           | Some (t, rest) => Some (String c t, rest)
           | None => None
           end
  end.

Definition digit_of (c : ascii) : option Z :=
  let n := nat_of_ascii c in
  if ((48 <=? n)%nat && (n <=? 57)%nat)%bool then Some (Z.of_nat (n - 48))
  else None.

Fixpoint scan_digits (acc : Z) (s : string) : Z * string :=
  match s with
  | EmptyString => (acc, s)
  | String c r =>
      match digit_of c with
      | Some d => scan_digits (acc * 10 + d) r
      | None => (acc, s)
      end
  end.

(** An integer literal without its sign: a lone 0, or a digit from 1 to 9
    and the digits after it. *)
Definition scan_nat (s : string) : option (Z * string) :=
  match s with
  | String c r =>
      match digit_of c with
      | Some 0%Z => Some (0%Z, r)
      | Some d => Some (scan_digits d r)
      | None => None
      end
  | EmptyString => None
  end.

Definition starts_fraction (s : string) : bool :=
  match s with
  | String c _ => Ascii.eqb c "." || Ascii.eqb c "e" || Ascii.eqb c "E"
  | EmptyString => false
  end.

Definition scan_int (negative : bool) (s : string) : option (pyval * string) :=
  match scan_nat s with
  | Some (n, rest) =>
      if starts_fraction rest then None
      else Some (PInt (if negative then - n else n)%Z, rest)
  | None => None
  end.

Definition scan_literal (s : string) : option (pyval * string) :=
  match strip_prefix "null" s with
  | Some r => Some (PNone, r)
  | None =>
  match strip_prefix "true" s with
  | Some r => Some (PBool true, r)
  | None =>
  match strip_prefix "false" s with
  | Some r => Some (PBool false, r)
  | None =>
  match strip_prefix "NaN" s with
  | Some r => Some (PFloat S754_nan, r)
  | None =>
  match strip_prefix "Infinity" s with
  | Some r => Some (PFloat (S754_infinity false), r)
  | None =>
  match strip_prefix "-Infinity" s with
  | Some r => Some (PFloat (S754_infinity true), r)
  | None =>
  match s with
  | String "-" r => scan_int true r
  | _ => scan_int false s
  end end end end end end end.

(** Recursive descent; [fuel] bounds the number of nested calls. *)
Fixpoint parse_value (fuel : nat) (s : string) : option (pyval * string) :=
  match fuel with
  | O => None
  | S fuel' =>
      match s with
      | String "[" r =>
          match skip_ws r with
          | String "]" r' => Some (PList [], r')
          | r' =>
              match parse_value fuel' r' with
              | Some (v, rest) => parse_items fuel' [v] (skip_ws rest)
              | None => None
              end
          end
      | String "{" r =>
          match skip_ws r with
          | String "}" r' => Some (PDict [], r')
          | r' => parse_member fuel' [] r'
          end
      | String c r =>
          if Ascii.eqb c dquote then
            match scan_string r with
            | Some (t, rest) => Some (PStr t, rest)
            | None => None
            end
          else scan_literal s
      | EmptyString => None
      end
  end

(** After an item of an array: a comma and one more item, or the end. *)
with parse_items (fuel : nat) (acc : list pyval) (s : string)
  : option (pyval * string) :=
  match fuel with
  | O => None
  | S fuel' =>
      match s with
      | String "]" r => Some (PList (rev acc), r)
      | String "," r =>
          match parse_value fuel' (skip_ws r) with
          | Some (v, rest) => parse_items fuel' (v :: acc) (skip_ws rest)
          | None => None
          end
      | _ => None
      end
  end

(** One [key : value] pair of an object, then a comma and one more pair,
    or the end.  A key that comes twice keeps its first place and takes
    the last value. *)
with parse_member (fuel : nat) (acc : dict) (s : string)
  : option (pyval * string) :=
  match fuel with
  | O => None
  | S fuel' =>
      match s with
      | String c r =>
          if Ascii.eqb c dquote then
            match scan_string r with
            | Some (k, rest) =>
                match skip_ws rest with
                | String ":" r1 =>
                    match parse_value fuel' (skip_ws r1) with
                    | Some (v, rest') =>
                        let acc' := dict_set k v acc in
                        match skip_ws rest' with
                        | String "}" r2 => Some (PDict acc', r2)
                        | String "," r2 => parse_member fuel' acc' (skip_ws r2)
                        | _ => None
                        end
                    | None => None
                    end
                | _ => None
                end
            | None => None
            end
          else None
      | EmptyString => None
      end
  end.

Definition json_loads (s : string) : option pyval :=
  match parse_value (2 * String.length s + 2) (skip_ws s) with
  | Some (v, rest) =>
      match skip_ws rest with
      | EmptyString => Some v
      | _ => None
      end
  | None => None
  end.

(** [str] of a decoded value, as Python prints it: [None], [True], decimal
    integers, quoted strings, and lists and dictionaries in insertion
    order.  A finite float other than zero is printed as mantissa and
    binary exponent, not in Python's shortest decimal form. *)
Definition str_of_Z (n : Z) : string := NilZero.string_of_int (Z.to_int n).

Fixpoint escape_chars (quote : ascii) (s : string) : string :=
  match s with
  | EmptyString => EmptyString
  | String c r =>
      let r' := escape_chars quote r in
      if Ascii.eqb c backslash then String backslash (String backslash r')
      else if Ascii.eqb c quote then String backslash (String c r')
      else if Ascii.eqb c (ascii_of_nat 10) then String backslash (String "n" r')
      else if Ascii.eqb c (ascii_of_nat 13) then String backslash (String "r" r')
      else if Ascii.eqb c (ascii_of_nat 9) then String backslash (String "t" r')
      else String c r'
  end.

Definition repr_str (s : string) : string :=
  let apostrophe := ascii_of_nat 39 in
  let quote :=
    if has_char apostrophe s && negb (has_char dquote s)
    then dquote else apostrophe in
  String quote (escape_chars quote s ++ String quote EmptyString).

Definition repr_float (f : spec_float) : string :=
  match f with
  | S754_zero false => "0.0"
  | S754_zero true => "-0.0"
  | S754_infinity false => "inf"
  | S754_infinity true => "-inf"
  | S754_nan => "nan"
  | S754_finite sign m e =>
      ((if sign then "-" else "") ++ str_of_Z (Zpos m) ++ "*2**" ++ str_of_Z e)%string
  end.

Fixpoint py_str (v : pyval) : string :=
  match v with
  | PNone => "None"
  | PBool true => "True"
  | PBool false => "False"
  | PInt n => str_of_Z n
  | PFloat f => repr_float f
  | PStr s => repr_str s
  | PList l => ("[" ++ PyStr.join ", " (map py_str l) ++ "]")%string
  | PDict d =>
      ("{" ++ PyStr.join ", "
                (map (fun kv => match kv with
                                | (k, x) => (repr_str k ++ ": " ++ py_str x)%string
                                end) d)
           ++ "}")%string
  end.

(** [str(v)] as [_model_response_to_text] uses it: a string prints as
    itself. *)
Definition str (v : pyval) : string :=
  match v with
  | PStr s => s
  | _ => py_str v
  end.

(** [posixpath.splitext] *)
Definition splitext (p : string) : string * string :=
  let sepIndex := PyStr.rfind "/" p in
  let dotIndex := PyStr.rfind "." p in
  if (sepIndex <? dotIndex)%Z then
    let name := PyStr.slice (sepIndex + 1) dotIndex p in
    if negb (String.eqb (PyStr.join "" (filter PyStr.nonempty (PyStr.split_on "." name))) "")
    then (PyStr.slice 0 dotIndex p,
          PyStr.slice dotIndex (Z.of_nat (String.length p)) p)
    else (p, "")
  else (p, "").

End Ref.

(* ===================================================================== *)
(** ** Vocabulary of the properties *)
(* ===================================================================== *)

(** The keys of [ks] are all present in [d]. *)
Definition has_all (ks : list string) (d : dict) : bool :=
  forallb (fun k => dict_has k d) ks.

(** The dictionary found under [k], empty when there is none. *)
Definition sub_dict (k : string) (d : dict) : dict :=
  match dict_lookup k d with
  | Some (PDict e) => e
  | _ => []
  end.

(** What [_merge_defaults] returns, written without the error monad. *)
Definition normal_form (x : pyval) (jd_present : bool) : dict :=
  let d0 := match x with PDict d => d | _ => [] end in
  let d3 := ensure_dict "skills_relevance"
              (ensure_dict "extracted" (fill_defaults defaults d0)) in
  let e := fill_defaults extracted_defaults (sub_dict "extracted" d3) in
  let s := fill_defaults skills_relevance_defaults
             (sub_dict "skills_relevance" d3) in
  let d5 := dict_set "skills_relevance" (PDict s)
              (dict_set "extracted" (PDict e) d3) in
  if jd_present then d5
  else
    dict_set "extracted" (PDict (dict_set "position" (PStr "") e))
      (dict_set "skills_relevance" (PDict (dict_set "missing" (PList []) s))
         (dict_set "missing_keywords" (PList []) d5)).

(** [v[k]] read off a report; [None] when there is nothing to read. *)
Definition item (k : string) (v : pyval) : pyval :=
  match v with
  | PDict d => dict_get k d
  | _ => PNone
  end.

Definition report_fields : list string :=
  ["score"; "matched_keywords"; "missing_keywords"; "formatting_issues";
   "suggestions"; "strengths"; "grammatical_errors"; "unnecessary_info";
   "professional_tone"; "experience_relevance"; "extracted";
   "skills_relevance"].

Definition extracted_fields : list string :=
  ["name"; "email"; "position"; "experience"; "skills"].

Definition skills_relevance_fields : list string := ["matched"; "missing"].

(** Every field of the report schema is present, with [extracted] and
    [skills_relevance] dictionaries that have their own fields. *)
Definition schema_complete (r : pyval) : bool :=
  match r with
  | PDict d =>
      has_all report_fields d
      && match dict_lookup "extracted" d with
         | Some (PDict e) => has_all extracted_fields e
         | _ => false
         end
      && match dict_lookup "skills_relevance" d with
         | Some (PDict s) => has_all skills_relevance_fields s
         | _ => false
         end
  | _ => false
  end.

(** The rule for a report made without a job description. *)
Definition jd_absence_rule (r : pyval) : Prop :=
  item "missing_keywords" r = PList []
  /\ item "missing" (item "skills_relevance" r) = PList []
  /\ item "position" (item "extracted" r) = PStr "".

(** The score of a report is an integer from 0 to 100. *)
Definition score_in_range (r : pyval) : Prop :=
  match item "score" r with
  | PInt n => (0 <= n <= 100)%Z
  | _ => False
  end.

(** The score the parsed object proposes, when it proposes one. *)
Definition proposed_score (x : pyval) : option pyval :=
  match x with
  | PDict d => dict_lookup "score" d
  | _ => None
  end.


(* ===================================================================== *)
(** ** Sample services and files *)
(* ===================================================================== *)

(** A reply of the service in the chat-completions shape, carrying
    [content] as the message of its first choice. *)
Definition chat_reply (content : string) : pyval :=
  PDict [("choices",
          PList [PDict [("index", PInt 0);
                        ("message",
                          PDict [("role", PStr "assistant");
                                 ("content", PStr content)])]])].

(** A service that answers every request with the same content, and one
    whose every request fails. *)
Definition service_saying (content : string)
  : list string -> string -> option pyval :=
  fun _ _ => Some (chat_reply content).



(** A file system in which only [resume.txt] and [scan.pdf] exist, and
    document readers that fail on every file. *)
Definition only_two_files (path : string) : bool :=
  String.eqb path "resume.txt" || String.eqb path "scan.pdf".

Definition unreadable {A : Type} (path : string) : outcome A := Raise IOError.

Definition exn_name (e : exn) : string :=
  match e with
  | RuntimeError msg => msg
  | RequestException => "request failed"
  | AttributeError => "attribute error"
  | KeyError k => k
  | TypeError => "type error"
  | IndexError => "index out of range"
  | IOError => "cannot read file"
  end.

(* ===================================================================== *)
(** ** The upload route of [main.py] *)
(* ===================================================================== *)

(** The disk, as far as the code uses it: the content found under a path.
    Writing and removing a file always succeed. *)
Definition fs : Type := string -> option string.

Definition fs_write (path content : string) (disk : fs) : fs :=
  fun q => if String.eqb q path then Some content else disk q.

Definition fs_remove (path : string) (disk : fs) : fs :=
  fun q => if String.eqb q path then None else disk q.

Definition fs_exists (disk : fs) (path : string) : bool :=
  match disk path with Some _ => true | None => false end.

(** What a handler of the web layer ends with: a body returned, or an
    exception, which is either Python's or an [HTTPException]. *)
Inductive route_exn : Type :=
| PyExn (e : exn)
| HTTPException (status : Z) (detail : string).

Inductive response : Type :=
| Returned (body : pyval)
| Failed (e : route_exn).

(** The outside world of a handler: the disk, the prompts posted to the
    generation service, and the documents stored in the database. *)
Record world : Type := {
  disk : fs;
  requests : list string;
  stored : list (string * pyval)
}.

(** [dict.get(k, default)] as a method: only a dictionary has it. *)
Definition method_get_default (obj : pyval) (k : string) (default : pyval)
  : outcome pyval :=
  match obj with
  | PDict d =>
      Ok match dict_lookup k d with Some v => v | None => default end
  | _ => Raise AttributeError
  end.

Definition unreadable_text : string :=
  "ERROR: Could not extract readable resume text.".

Module Main.

Section Route.

(** The analyser's parameters. *)
Variable json_loads : string -> option pyval.
Variable py_str : pyval -> string.
Variable API_KEY : option string.
Variable http_post : list string -> string -> option pyval.
(** What PyMuPDF and python-docx read from the bytes of a file. *)
Variable fitz_read : string -> outcome (list fitz_page).
Variable docx_read : string -> outcome (list string).
(** [from ats_utils.extract_any import extract_text_from_file] *)
Variable import_extract_any : outcome unit.
(** [str(e)] of a Python exception and of an [HTTPException]. *)
Variable exn_str : exn -> string.
Variable http_exn_str : Z -> string -> string.
(** [str(uuid.uuid4())], [datetime.utcnow()], and whether the write to
    the database succeeds. *)
Variable uuid4 : string.
Variable utcnow : pyval.
Variable firestore_set : string -> pyval -> outcome unit.

(** The readers on a path of the disk; a missing file cannot be opened. *)
Definition fitz_pages_at (d : fs) (path : string) : outcome (list fitz_page) :=
  match d path with
  | Some content => fitz_read content
  | None => Raise IOError
  end.

Definition docx_paragraphs_at (d : fs) (path : string)
  : outcome (list string) :=
  match d path with
  | Some content => docx_read content
  | None => Raise IOError
  end.

Definition extract_text_from_pdf (d : fs) (file_path : string)
  : outcome string :=
  let? pages := fitz_pages_at d file_path in
  let? text := fitz_loop "" pages in
  Ok (PyStr.strip text).

Definition extract_text_from_docx (d : fs) (file_path : string)
  : outcome string :=
  let? paragraphs := docx_paragraphs_at d file_path in
  let lines :=
    map PyStr.strip
        (filter (fun p => PyStr.nonempty (PyStr.strip p)) paragraphs) in
  Ok (PyStr.join PyStr.newline lines).

Definition route_exn_str (e : route_exn) : string :=
  match e with
  | PyExn e' => exn_str e'
  | HTTPException status detail => http_exn_str status detail
  end.

(** The report built when the analyser raises. *)
Definition analyzer_failed (e : exn) : pyval :=
  PDict
    [ ("score", PInt 0);
      ("matched_keywords", PList []);
      ("missing_keywords", PList []);
      ("formatting_issues", PList []);
      ("suggestions", PList []);
      ("strengths", PList []);
      ("extracted",
        PDict [ ("name", PStr ""); ("email", PStr ""); ("position", PStr "");
                ("experience", PStr "Fresher"); ("skills", PList []) ]);
      ("grammatical_errors", PList []);
      ("professional_tone", PStr "");
      ("unnecessary_info", PList []);
      ("experience_relevance", PStr "");
      ("skills_relevance",
        PDict [ ("matched", PList []); ("missing", PList []) ]);
      ("error", PStr ("analyzer_failed: " ++ exn_str e)) ].

(** The extraction step of the route, with its two nested [try]s: the
    inner one turns any exception of the third branch into an
    [HTTPException] of status 400. *)
Definition route_extract (file_ext temp_path : string) (d : fs)
  : string + route_exn :=
  let lift_py (x : outcome string) : string + route_exn :=
    match x with Ok t => inl t | Raise e => inr (PyExn e) end in
  if String.eqb file_ext "pdf" then lift_py (extract_text_from_pdf d temp_path)
  else if String.eqb file_ext "docx"
  then lift_py (extract_text_from_docx d temp_path)
  else
    match (let? _ := import_extract_any in
           extract_text_from_file (fs_exists d) (fitz_pages_at d)
             (docx_paragraphs_at d) temp_path) with
    | Ok t => inl t
    | Raise _ => inr (HTTPException 400 "Unsupported file format")
    end.

Definition ats_analyze (filename content job_description userId : string)
  (w : world) : response * world :=
  let file_ext := PyStr.lower (last (PyStr.split_on "." filename) "") in
  let temp_path := ("temp." ++ file_ext)%string in
  let disk1 := fs_write temp_path content (disk w) in
  match route_extract file_ext temp_path disk1 with
  | inr e =>
      (Failed (HTTPException 500
                 ("Failed to extract resume text: " ++ route_exn_str e)),
       {| disk := fs_remove temp_path disk1;
          requests := requests w;
          stored := stored w |})
  | inl text =>
      let resume_text :=
        if (String.length text <? 50)%nat then unreadable_text else text in
      let run := analyze_resume_with_ai json_loads py_str API_KEY http_post
                   resume_text (Some job_description) (requests w) in
      let result :=
        match fst run with
        | Ok r => r
        | Raise e => analyzer_failed e
        end in
      let disk2 := fs_remove temp_path disk1 in
      match method_get_default result "score" (PInt 0) with
      | Raise e =>
          (Failed (PyExn e),
           {| disk := disk2; requests := snd run; stored := stored w |})
      | Ok score =>
          let doc_data :=
            PDict [ ("id", PStr uuid4);
                    ("userId", PStr userId);
                    ("score", score);
                    ("createdAt", utcnow);
                    ("result", result) ] in
          let stored' :=
            match firestore_set uuid4 doc_data with
            | Ok _ => stored w ++ [(uuid4, doc_data)]
            | Raise _ => stored w
            end in
          (Returned (PDict [("id", PStr uuid4); ("result", result)]),
           {| disk := disk2; requests := snd run; stored := stored' |})
      end
  end.

End Route.

End Main.

(* ===================================================================== *)
(** ** The job matcher: [jobmatcher.py] *)
(* ===================================================================== *)



(** What iterating over a value yields: the items of a list, the keys of
    a dictionary, the characters of a string; nothing else iterates. *)
Fixpoint chars_of (s : string) : list pyval :=
  match s with
  | EmptyString => []
  | String c r => PStr (String c EmptyString) :: chars_of r
  end.

Definition py_iter (v : pyval) : outcome (list pyval) :=
  match v with
  | PList l => Ok l
  | PDict d => Ok (map (fun kv => PStr (fst kv)) d)
  | PStr s => Ok (chars_of s)
  | _ => Raise TypeError
  end.

(** [j.get(k, {}).get("display_name") if j.get(k) else None] *)
Definition display_name_of (j : pyval) (k : string) : outcome pyval :=
  let? present := method_get j k in
  if truthy present then
    let? inner := method_get_default j k (PDict []) in
    method_get inner "display_name"
  else Ok PNone.

(** The dictionary appended for one entry of the results. *)
Definition job_entry (j : pyval) : outcome pyval :=
  let? title := method_get j "title" in
  let? company := display_name_of j "company" in
  let? location := display_name_of j "location" in
  let? salary_min := method_get j "salary_min" in
  let? salary_max := method_get j "salary_max" in
  let? redirect_url := method_get j "redirect_url" in
  let? created := method_get j "created" in
  let? description := method_get j "description" in
  Ok (PDict [ ("title", title);
              ("company", company);
              ("location", location);
              ("salary_min", salary_min);
              ("salary_max", salary_max);
              ("redirect_url", redirect_url);
              ("created", created);
              ("description", description) ]).

Fixpoint jobs_loop (jobs : list pyval) (results : list pyval)
  : outcome (list pyval) :=
  match results with
  | [] => Ok jobs
  | j :: rest =>
      let? entry := job_entry j in
      jobs_loop (jobs ++ [entry]) rest
  end.

Module JobMatcher.


Section Matcher.

Variable ADZUNA_APP_ID : pyval.
Variable ADZUNA_APP_KEY : pyval.
(** [requests.get] followed by [raise_for_status] and [r.json()]: the
    decoded body, or [None] when one of them raises. *)
Variable http_get : string -> dict -> option pyval.
(** The readers of [extract_any.py], on the bytes of a file. *)
Variable fitz_read : string -> outcome (list fitz_page).
Variable docx_read : string -> outcome (list string).
(** [tempfile.gettempdir()] and [os.path.join]. *)
Variable gettempdir : string.
Variable os_path_join : string -> string -> string.

Definition fetch_adzuna_jobs (job_title location : pyval) (page : Z)
  (results_per_page : Z) : outcome (list pyval) :=
  let country := "in" in
  let url := ("https://api.adzuna.com/v1/api/jobs/" ++ country ++ "/search/"
              ++ Ref.str_of_Z page)%string in
  let params :=
    [ ("app_id", ADZUNA_APP_ID);
      ("app_key", ADZUNA_APP_KEY);
      ("what", job_title);
      ("where", location);
      ("results_per_page", PInt results_per_page) ] in
  match http_get url params with
  | None => Raise RequestException
  | Some data =>
      let? results := method_get_default data "results" (PList []) in
      let? items := py_iter results in
      jobs_loop [] items
  end.


End Matcher.

End JobMatcher.

(* ===================================================================== *)
(** ** The recommendation route and the stand-in analyser of [main.py] *)
(* ===================================================================== *)

(** [s[:j+1]] where [j] is the index of the last [c] in [s]. *)
Definition upto_last (c : ascii) (s : string) : string :=
  PyStr.slice 0 (PyStr.rfind c s + 1) s.

(** [re.search] for an opening brace followed, anywhere later, by a
    closing brace, or the same with square brackets: the group matched.
    The search takes the first position where one of the two
    alternatives matches, and there the longest match. *)
Fixpoint regex_search (s : string) : option string :=
  match s with
  | EmptyString => None
  | String c r =>
      if Ascii.eqb c "{" && has_char "}" r
      then Some (String c (upto_last "}" r))
      else if Ascii.eqb c "[" && has_char "]" r
      then Some (String c (upto_last "]" r))
      else regex_search r
  end.

Module Recommend.

(** The analyser [main.py] defines for itself when [ats_utils.ats_ai]
    cannot be imported. *)
Definition analyze_resume_with_ai (resume_text job_description : string)
  : pyval :=
  let words := PyStr.split (PyStr.lower resume_text) in
  let skills :=
    filter (fun w => PyStr.mem w words)
      ["python"; "java"; "sql"; "javascript"; "react"; "docker"; "aws";
       "c++"; "c"] in
  PDict
    [ ("score", PInt 60);
      ("matched_keywords", str_list (firstn 5 skills));
      ("missing_keywords", PList []);
      ("formatting_issues", PList []);
      ("suggestions",
        str_list ["Add more keywords from job description";
                  "Make project bullets quantifiable"]);
      ("strengths",
        str_list ["Clear education section"; "Relevant projects"]);
      ("extracted",
        PDict [ ("name", PStr "");
                ("email", PStr "");
                ("position",
                  PStr (if negb (PyStr.nonempty job_description) then ""
                        else PyStr.slice 0 50
                               (hd "" (PyStr.split_on (ascii_of_nat 10)
                                         job_description))));
                ("experience",
                  PStr (if (length words <? 50)%nat then "Fresher"
                        else "1-2 years"));
                ("skills", str_list (firstn 5 skills)) ]);
      ("grammatical_errors", PList []);
      ("professional_tone", PStr "");
      ("unnecessary_info", PList []);
      ("experience_relevance", PStr "");
      ("skills_relevance",
        PDict [ ("matched", str_list (firstn 3 skills));
                ("missing", PList []) ]) ].

Section Route.

Variable json_loads : string -> option pyval.
Variable py_str : pyval -> string.
(** [GORQ_API_KEY] and [GORQ_API_URL] as the module reads them; the
    second is never empty, since it falls back to the public address. *)
Variable GORQ_API_KEY : option string.
Variable env_GORQ_API_URL : option string.
(** The chat-completions endpoint, as for the analyser. *)
Variable http_post : list string -> string -> option pyval.
Variable fitz_read : string -> outcome (list fitz_page).
Variable docx_read : string -> outcome (list string).
Variable gettempdir : string.
Variable os_path_join : string -> string -> string.
(** [str(e)] of a Python exception, and of the error [json.loads]
    raises on a text. *)
Variable exn_str : exn -> string.
Variable json_error_str : string -> string.



(** The body of the inner [try] of the route: the text of the reply. *)
Definition text_out_try (resp : pyval) : outcome pyval :=
  let? c := method_get resp "choices" in
  let choices := py_or c (PList []) in
  if truthy choices then
    let? first := first_item choices in
    let? m := method_get_default first "message" (PDict []) in
    let? mc := method_get m "content" in
    if truthy mc then Ok mc
    else let? t := method_get first "text" in Ok (py_or t (PStr ""))
  else
    let? o := method_get resp "output" in
    if truthy o then Ok o
    else let? r := method_get resp "result" in
         Ok (py_or r (PStr (py_str resp))).

Definition text_out_of (resp : pyval) : pyval :=
  match text_out_try resp with
  | Ok t => t
  | Raise _ => PStr (py_str resp)
  end.

(** What the route does with the reply of the service. *)
Definition recommendations_of (resp : pyval) : response :=
  match text_out_of resp with
  | PStr t =>
      match regex_search t with
      | None =>
          Returned (PDict [("raw", PStr t); ("full_response", resp)])
      | Some group =>
          match json_loads group with
          | None => Failed (HTTPException 500 (json_error_str group))
          | Some parsed =>
              match method_get_default parsed "recommendations" parsed with
              | Ok v => Returned (PDict [("recommendations", v)])
              | Raise e => Failed (HTTPException 500 (exn_str e))
              end
          end
      end
  | _ => Failed (HTTPException 500 (exn_str TypeError))
  end.


End Route.

End Recommend.

(* ===================================================================== *)
(** ** Further vocabulary *)
(* ===================================================================== *)

(** Every character of [s] is white space. *)
Fixpoint all_space (s : string) : bool :=
  match s with
  | EmptyString => true
  | String c r => PyStr.isspace c && all_space r
  end.

(** An entry of the job search results that [fetch_adzuna_jobs] can
    read: a dictionary whose [company] and [location], when they are
    present and true in Python's sense, are dictionaries. *)
Definition named_or_absent (j : dict) (k : string) : bool :=
  negb (truthy (dict_get k j)) || is_dict (dict_get k j).

Definition entry_ok (j : pyval) : bool :=
  match j with
  | PDict d => named_or_absent d "company" && named_or_absent d "location"
  | _ => false
  end.

Definition job_fields : list string :=
  ["title"; "company"; "location"; "salary_min"; "salary_max";
   "redirect_url"; "created"; "description"].

(** The [display_name] of the record under [k], or [None] when the entry
    has nothing true there. *)
Definition display_name (entry : pyval) (k : string) : pyval :=
  if truthy (item k entry) then item "display_name" (item k entry)
  else PNone.

(** [job] is the dictionary made for [entry]. *)
Definition job_matches (entry job : pyval) : Prop :=
  (exists d, job = PDict d /\ map fst d = job_fields)
  /\ (forall k, In k ["title"; "salary_min"; "salary_max"; "redirect_url";
                      "created"; "description"] ->
                item k job = item k entry)
  /\ item "company" job = display_name entry "company"
  /\ item "location" job = display_name entry "location".

(* ===================================================================== *)
(** * Properties *)
(* ===================================================================== *)

(* ===================================================================== *)
(** ** Runs of the definitions *)
(* ===================================================================== *)

Example strip_ex : PyStr.strip "  a b
 " = "a b".
Proof. reflexivity. Qed.

Example split_ex : PyStr.split "  Python   and SQL
x " = ["Python"; "and"; "SQL"; "x"].
Proof. reflexivity. Qed.

Example find_ex : PyStr.find "{" "ab{c{" = 2%Z /\ PyStr.rfind "{" "ab{c{" = 4%Z
                  /\ PyStr.find "{" "abc" = (-1)%Z.
Proof. repeat split. Qed.

Example slice_ex : PyStr.slice 2 5 "ab{c}d" = "{c}".
Proof. reflexivity. Qed.

Example merge_none :
  _merge_defaults PNone true = Ok (PDict defaults).
Proof. reflexivity. Qed.

Example merge_partial :
  _merge_defaults
    (PDict [("score", PInt 88); ("extracted", PStr "n/a");
            ("missing_keywords", PList [PStr "Kubernetes"])]) false
  = Ok (PDict
      [ ("score", PInt 88);
        ("extracted", PDict extracted_defaults);
        ("missing_keywords", PList []);
        ("matched_keywords", PList []);
        ("formatting_issues", PList []);
        ("suggestions", PList []);
        ("strengths", PList []);
        ("grammatical_errors", PList []);
        ("professional_tone", PStr "");
        ("unnecessary_info", PList []);
        ("experience_relevance", PStr "");
        ("skills_relevance", PDict skills_relevance_defaults) ]).
Proof. reflexivity. Qed.

Example json_loads_object :
  Ref.json_loads (PyStr.requote " {'score': 77, 'extracted': {'skills': ['sql', 'c']}, 'ok': true} ")
  = Some (PDict [("score", PInt 77);
                 ("extracted",
                   PDict [("skills", PList [PStr "sql"; PStr "c"])]);
                 ("ok", PBool true)]).
Proof. vm_compute. reflexivity. Qed.

Example json_loads_prose :
  Ref.json_loads (PyStr.requote "Here is the result: {'score': 77} Thanks!") = None
  /\ Ref.json_loads "[1, 2" = None
  /\ Ref.json_loads "[1, 2]" = Some (PList [PInt 1; PInt 2])
  /\ Ref.json_loads "null" = Some PNone
  /\ Ref.json_loads "-12" = Some (PInt (-12))
  /\ Ref.json_loads "01" = None
  /\ Ref.json_loads (PyStr.requote "{'a': 1, 'b': 2, 'a': 3}")
     = Some (PDict [("a", PInt 3); ("b", PInt 2)]).
Proof. vm_compute. repeat split. Qed.

Example py_str_ex :
  Ref.str (PDict [("choices", PList []); ("n", PInt (-3)); ("s", PStr "a'b")])
  = ("{'choices': [], 'n': -3, 's': "
       ++ String Ref.dquote "a'b" ++ String Ref.dquote "}")%string.
Proof. vm_compute. reflexivity. Qed.

Example splitext_ex :
  Ref.splitext "dir.d/resume.PDF" = ("dir.d/resume", ".PDF")
  /\ Ref.splitext "dir.d/.bashrc" = ("dir.d/.bashrc", "")
  /\ Ref.splitext "notes" = ("notes", "")
  /\ Ref.splitext "a.tar.gz" = ("a.tar", ".gz").
Proof. vm_compute. repeat split. Qed.

(* ===================================================================== *)
(** ** Dictionaries *)
(* ===================================================================== *)

Lemma dict_lookup_set (k k' : string) (v : pyval) (d : dict) :
  dict_lookup k' (dict_set k v d)
  = if String.eqb k' k then Some v else dict_lookup k' d.
Proof.
  induction d as [|[k0 v0] r IH]; simpl.
  - destruct (String.eqb k' k); reflexivity.
  - destruct (String.eqb_spec k k0) as [->|Hne]; simpl.
    + destruct (String.eqb k' k0); reflexivity.
    + rewrite IH.
      destruct (String.eqb_spec k' k0) as [->|Hne'].
      * destruct (String.eqb_spec k0 k); [congruence | reflexivity].
      * reflexivity.
Qed.

Lemma dict_has_set (k k' : string) (v : pyval) (d : dict) :
  dict_has k' (dict_set k v d) = String.eqb k' k || dict_has k' d.
Proof.
  unfold dict_has. rewrite dict_lookup_set.
  destruct (String.eqb k' k); reflexivity.
Qed.

(** Storing the value a key already has changes nothing. *)
Lemma dict_set_same (k : string) (v : pyval) (d : dict) :
  dict_lookup k d = Some v -> dict_set k v d = d.
Proof.
  induction d as [|[k0 v0] r IH]; simpl; [discriminate|].
  destruct (String.eqb k k0); intros H.
  - congruence.
  - rewrite IH by assumption. reflexivity.
Qed.

(** Of two stores to one key the second wins. *)
Lemma dict_set_set (k : string) (v w : pyval) (d : dict) :
  dict_set k w (dict_set k v d) = dict_set k w d.
Proof.
  induction d as [|[k0 v0] r IH]; simpl.
  - rewrite String.eqb_refl. reflexivity.
  - destruct (String.eqb k k0) eqn:E; simpl; rewrite E.
    + reflexivity.
    + rewrite IH. reflexivity.
Qed.

Lemma dict_has_lookup (k : string) (d : dict) :
  dict_has k d = true <-> exists v, dict_lookup k d = Some v.
Proof.
  unfold dict_has. destruct (dict_lookup k d) as [v|].
  - split; [eauto | reflexivity].
  - split; [discriminate | intros [v Hv]; discriminate].
Qed.

Lemma fill_key_lookup (k : string) (kv : string * pyval) (d : dict) :
  dict_lookup k (fill_key d kv)
  = match dict_lookup k d with
    | Some v => Some v
    | None => if String.eqb k (fst kv) then Some (snd kv) else None
    end.
Proof.
  destruct kv as [k0 v0]. unfold fill_key, dict_has. simpl.
  destruct (dict_lookup k0 d) as [w|] eqn:E.
  - destruct (dict_lookup k d) eqn:E'; [reflexivity|].
    destruct (String.eqb_spec k k0); [congruence | reflexivity].
  - rewrite dict_lookup_set.
    destruct (String.eqb_spec k k0) as [->|].
    + rewrite E. reflexivity.
    + destruct (dict_lookup k d); reflexivity.
Qed.

(** After the filling loop a key holds what it held before, or else what
    the defaults give it. *)
Lemma fill_defaults_lookup (k : string) (dflt d : dict) :
  dict_lookup k (fill_defaults dflt d)
  = match dict_lookup k d with
    | Some v => Some v
    | None => dict_lookup k dflt
    end.
Proof.
  unfold fill_defaults. revert d.
  induction dflt as [|[k0 v0] rest IH]; intros d; simpl.
  - destruct (dict_lookup k d); reflexivity.
  - rewrite IH, fill_key_lookup. simpl.
    destruct (dict_lookup k d); [reflexivity|].
    destruct (String.eqb k k0); reflexivity.
Qed.

Lemma fill_defaults_has (k : string) (dflt d : dict) :
  dict_has k (fill_defaults dflt d) = dict_has k d || dict_has k dflt.
Proof.
  unfold dict_has. rewrite fill_defaults_lookup.
  destruct (dict_lookup k d); reflexivity.
Qed.

(** The loop leaves a dictionary that has every default key as it is. *)
Lemma fill_defaults_id (dflt d : dict) :
  has_all (map fst dflt) d = true -> fill_defaults dflt d = d.
Proof.
  unfold fill_defaults, has_all.
  induction dflt as [|[k0 v0] rest IH]; simpl; [reflexivity|].
  intros H. apply andb_prop in H as [H1 H2].
  unfold fill_key at 2. simpl. rewrite H1. apply IH, H2.
Qed.

Lemma ensure_dict_lookup (k k' : string) (d : dict) :
  dict_lookup k' (ensure_dict k d)
  = if String.eqb k' k then Some (PDict (sub_dict k d)) else dict_lookup k' d.
Proof.
  unfold ensure_dict, sub_dict, dict_get.
  destruct (dict_lookup k d) as [[| | | | | |e]|] eqn:E; simpl;
    try rewrite dict_lookup_set;
    destruct (String.eqb_spec k' k) as [->|]; try reflexivity.
  exact E.
Qed.

Lemma ensure_dict_has (k k' : string) (d : dict) :
  dict_has k' (ensure_dict k d) = String.eqb k' k || dict_has k' d.
Proof.
  unfold dict_has. rewrite ensure_dict_lookup.
  destruct (String.eqb k' k); reflexivity.
Qed.

Lemma ensure_dict_id (k : string) (e d : dict) :
  dict_lookup k d = Some (PDict e) -> ensure_dict k d = d.
Proof.
  intros H. unfold ensure_dict, dict_get. rewrite H. reflexivity.
Qed.

(** The nested filling loop, in closed form. *)
Lemma fill_nested_eq (outer : string) (dflt e d : dict) :
  dict_lookup outer d = Some (PDict e) ->
  fill_nested outer dflt d
  = Ok (dict_set outer (PDict (fill_defaults dflt e)) d).
Proof.
  revert e d. induction dflt as [|[k0 v0] rest IH]; intros e d H; simpl.
  - rewrite dict_set_same by exact H. reflexivity.
  - unfold fill_nested_key, subscript. rewrite H. simpl.
    unfold fill_defaults. simpl. unfold fill_key at 2. simpl.
    destruct (dict_has k0 e); simpl.
    + apply IH, H.
    + unfold set_nested, subscript. rewrite H. simpl.
      rewrite (IH (dict_set k0 v0 e)).
      * rewrite dict_set_set. reflexivity.
      * rewrite dict_lookup_set, String.eqb_refl. reflexivity.
Qed.

Lemma set_nested_eq (outer k : string) (v : pyval) (e d : dict) :
  dict_lookup outer d = Some (PDict e) ->
  set_nested outer k v d = Ok (dict_set outer (PDict (dict_set k v e)) d).
Proof.
  intros H. unfold set_nested, subscript. rewrite H. reflexivity.
Qed.

(* ===================================================================== *)
(** ** The normaliser in closed form *)
(* ===================================================================== *)

(** Evaluate the comparisons of two literal keys, and the look-ups in the
    tables of defaults, that a goal contains. *)
Ltac eval_keys :=
  repeat match goal with
    | |- context [String.eqb ?a ?b] =>
        let r := eval vm_compute in (String.eqb a b) in
        lazymatch r with
        | true => change (String.eqb a b) with true
        | false => change (String.eqb a b) with false
        end
    | |- context [dict_has ?k ?d] =>
        first [ constr_eq d defaults
              | constr_eq d extracted_defaults
              | constr_eq d skills_relevance_defaults ];
        let r := eval vm_compute in (dict_has k d) in
        lazymatch r with
        | true => change (dict_has k d) with true
        | false => change (dict_has k d) with false
        end
    end.

Ltac dict_norm :=
  repeat (rewrite ?dict_lookup_set, ?ensure_dict_lookup, ?dict_has_set,
            ?ensure_dict_has, ?fill_defaults_has;
          eval_keys; cbv beta iota;
          rewrite ?orb_true_r, ?orb_true_l, ?andb_true_l, ?andb_true_r,
            ?orb_false_l, ?orb_false_r).

Lemma merge_defaults_eq (x : pyval) (jd_present : bool) :
  _merge_defaults x jd_present = Ok (PDict (normal_form x jd_present)).
Proof.
  unfold _merge_defaults, normal_form.
  set (d3 := ensure_dict "skills_relevance" _).
  assert (He : dict_lookup "extracted" d3
               = Some (PDict (sub_dict "extracted" d3))).
  { unfold sub_dict. subst d3. dict_norm. reflexivity. }
  assert (Hs : dict_lookup "skills_relevance" d3
               = Some (PDict (sub_dict "skills_relevance" d3))).
  { unfold sub_dict. subst d3. dict_norm. reflexivity. }
  rewrite (fill_nested_eq _ _ _ _ He). cbn [obind].
  set (e := fill_defaults extracted_defaults _).
  set (d4 := dict_set "extracted" (PDict e) d3).
  assert (Hs4 : dict_lookup "skills_relevance" d4
                = Some (PDict (sub_dict "skills_relevance" d3))).
  { subst d4. dict_norm. exact Hs. }
  rewrite (fill_nested_eq _ _ _ _ Hs4). cbn [obind].
  set (s := fill_defaults skills_relevance_defaults _).
  set (d5 := dict_set "skills_relevance" (PDict s) d4).
  destruct jd_present; cbn [negb obind]; [reflexivity|].
  unfold clear_jd_fields.
  rewrite (set_nested_eq "skills_relevance" "missing" (PList []) s).
  2:{ subst d5. dict_norm. reflexivity. }
  cbn [obind].
  rewrite (set_nested_eq "extracted" "position" (PStr "") e).
  2:{ subst d5 d4. dict_norm. reflexivity. }
  reflexivity.
Qed.

Lemma has_all_In (ks : list string) (d : dict) :
  has_all ks d = true <-> (forall k, In k ks -> dict_has k d = true).
Proof. unfold has_all. apply forallb_forall. Qed.

Lemma normal_form_complete (x : pyval) (jd_present : bool) :
  schema_complete (PDict (normal_form x jd_present)) = true.
Proof.
  unfold schema_complete, normal_form.
  set (d3 := ensure_dict "skills_relevance" _).
  set (e := fill_defaults extracted_defaults _).
  set (s := fill_defaults skills_relevance_defaults _).
  assert (Htop : forall k, In k report_fields -> dict_has k d3 = true).
  { intros k Hk. subst d3. rewrite !ensure_dict_has, fill_defaults_has.
    simpl in Hk.
    repeat (destruct Hk as [<-|Hk]; [dict_norm; reflexivity|]).
    contradiction. }
  assert (Hsub : has_all extracted_fields e = true).
  { subst e. cbn [has_all forallb extracted_fields]. dict_norm. reflexivity. }
  assert (Hrel : has_all skills_relevance_fields s = true).
  { subst s. cbn [has_all forallb skills_relevance_fields]. dict_norm.
    reflexivity. }
  destruct jd_present.
  - dict_norm. rewrite Hsub, Hrel, andb_true_r, andb_true_r.
    apply has_all_In. intros k Hk. rewrite !dict_has_set, (Htop k Hk).
    rewrite !orb_true_r. reflexivity.
  - dict_norm.
    replace (has_all extracted_fields (dict_set "position" (PStr "") e))
      with true.
    2:{ symmetry. apply has_all_In. intros k Hk. rewrite dict_has_set.
        rewrite (proj1 (has_all_In _ _) Hsub k Hk). apply orb_true_r. }
    replace (has_all skills_relevance_fields
               (dict_set "missing" (PList []) s)) with true.
    2:{ symmetry. apply has_all_In. intros k Hk. rewrite dict_has_set.
        rewrite (proj1 (has_all_In _ _) Hrel k Hk). apply orb_true_r. }
    rewrite !andb_true_r.
    apply has_all_In. intros k Hk. rewrite !dict_has_set, (Htop k Hk).
    rewrite !orb_true_r. reflexivity.
Qed.

Lemma normal_form_jd_absent (x : pyval) :
  jd_absence_rule (PDict (normal_form x false)).
Proof.
  unfold jd_absence_rule, normal_form, item, dict_get.
  repeat split; dict_norm; cbn [item dict_get]; dict_norm; reflexivity.
Qed.

Lemma item_lookup (k : string) (d : dict) (v : pyval) :
  v <> PNone -> item k (PDict d) = v -> dict_lookup k d = Some v.
Proof.
  unfold item, dict_get. destruct (dict_lookup k d); intros Hv H.
  - congruence.
  - congruence.
Qed.

(** A complete report that obeys the rule for its [jd_present] is left as
    it is. *)
Lemma normal_form_fixed (d : dict) (jd_present : bool) :
  schema_complete (PDict d) = true ->
  (jd_present = false -> jd_absence_rule (PDict d)) ->
  normal_form (PDict d) jd_present = d.
Proof.
  unfold schema_complete. intros Hc Hjd.
  apply andb_prop in Hc as [Hc Hrel]. apply andb_prop in Hc as [Htop Hsub].
  destruct (dict_lookup "extracted" d) as [[| | | | | |e]|] eqn:He;
    try discriminate.
  destruct (dict_lookup "skills_relevance" d) as [[| | | | | |s]|] eqn:Hs;
    try discriminate.
  assert (Hfill : fill_defaults defaults d = d).
  { apply fill_defaults_id, has_all_In. intros k Hk.
    apply (proj1 (has_all_In _ _) Htop). simpl in Hk |- *. tauto. }
  unfold normal_form. rewrite Hfill.
  rewrite (ensure_dict_id _ _ _ He), (ensure_dict_id _ _ _ Hs).
  unfold sub_dict. rewrite He, Hs.
  rewrite (fill_defaults_id extracted_defaults e) by exact Hsub.
  rewrite (fill_defaults_id skills_relevance_defaults s) by exact Hrel.
  rewrite (dict_set_same _ _ _ He), (dict_set_same _ _ _ Hs).
  destruct jd_present; [reflexivity|].
  destruct (Hjd eq_refl) as (Hmk & Hmiss & Hpos).
  apply item_lookup in Hmk; [|discriminate].
  unfold item at 2 in Hmiss. unfold dict_get in Hmiss. rewrite Hs in Hmiss.
  apply item_lookup in Hmiss; [|discriminate].
  unfold item at 2 in Hpos. unfold dict_get in Hpos. rewrite He in Hpos.
  apply item_lookup in Hpos; [|discriminate].
  rewrite (dict_set_same _ _ _ Hmk), (dict_set_same _ _ _ Hmiss).
  rewrite (dict_set_same _ _ _ Hs), (dict_set_same _ _ _ Hpos).
  apply dict_set_same, He.
Qed.

(* ===================================================================== *)
(** ** The analyser in closed form *)
(* ===================================================================== *)

Section AnalyzerFacts.

Variable json_loads : string -> option pyval.
Variable py_str : pyval -> string.
Variable API_KEY : option string.
Variable http_post : list string -> string -> option pyval.

Local Abbreviation safe_parse := (_safe_parse_json json_loads).
Local Abbreviation response_text := (_model_response_to_text py_str).
Local Abbreviation attempt := (model_attempt json_loads py_str API_KEY http_post).
Local Abbreviation resume_only :=
  (_analyze_resume_only json_loads py_str API_KEY http_post).
Local Abbreviation analyze :=
  (analyze_resume_with_ai json_loads py_str API_KEY http_post).

Lemma model_attempt_eq (prompt resume_text : string) (jd_present : bool)
  (h : list string) :
  attempt prompt resume_text jd_present h
  = if api_key_set API_KEY then
      (Ok match recovered json_loads py_str (http_post h prompt) with
          | Some v => Some (PDict (normal_form v jd_present))
          | None => None
          end,
       h ++ [prompt])
    else (Ok None, h).
Proof.
  unfold model_attempt, recovered.
  destruct (api_key_set API_KEY) eqn:Hk; [|reflexivity].
  unfold try_except, _analyze_with_model, bind, _call_model_chat, lift, ret.
  rewrite Hk. cbn [negb].
  destruct (http_post h prompt) as [body|]; [|reflexivity].
  destruct (safe_parse (response_text body)) as [v|e]; [|reflexivity].
  cbv beta iota.
  destruct (is_none v) eqn:Hv; cbv beta iota; rewrite ?Hv; cbv beta iota.
  - reflexivity.
  - rewrite merge_defaults_eq. reflexivity.
Qed.

Lemma fallback_complete (resume_text : string) :
  schema_complete (fallback resume_text) = true.
Proof. reflexivity. Qed.

Lemma fallback_jd_absent (resume_text : string) :
  jd_absence_rule (fallback resume_text).
Proof. repeat split. Qed.

(** The normaliser returns the heuristic report as it received it. *)
Lemma merge_defaults_fallback (resume_text : string) :
  _merge_defaults (fallback resume_text) false = Ok (fallback resume_text).
Proof.
  rewrite merge_defaults_eq. unfold fallback at 1.
  rewrite normal_form_fixed.
  - reflexivity.
  - apply fallback_complete.
  - intros _. apply fallback_jd_absent.
Qed.

Lemma resume_only_eq (resume_text : string) (h : list string) :
  resume_only resume_text h
  = let prompt := build_resume_only_prompt resume_text in
    if api_key_set API_KEY then
      (Ok match recovered json_loads py_str (http_post h prompt) with
          | Some v => PDict (normal_form v false)
          | None => fallback resume_text
          end,
       h ++ [prompt])
    else (Ok (fallback resume_text), h).
Proof.
  unfold _analyze_resume_only, bind. rewrite model_attempt_eq.
  cbv zeta.
  destruct (api_key_set API_KEY).
  - destruct (recovered _ _ _); unfold ret, lift;
      rewrite ?merge_defaults_fallback; reflexivity.
  - unfold lift. rewrite merge_defaults_fallback. reflexivity.
Qed.

Lemma analyze_no_jd (resume_text : string) (job_description : option string)
  (h : list string) :
  PyStr.strip (match job_description with Some s => s | None => "" end) = "" ->
  analyze resume_text job_description h = resume_only resume_text h.
Proof.
  intros H. unfold analyze_resume_with_ai. rewrite H. reflexivity.
Qed.

Lemma analyze_with_jd (resume_text : string) (job_description : option string)
  (h : list string) :
  let jd := PyStr.strip (match job_description with
                         | Some s => s
                         | None => ""
                         end) in
  let prompt := build_resume_jd_prompt resume_text jd in
  jd <> "" ->
  analyze resume_text job_description h
  = if api_key_set API_KEY then
      match recovered json_loads py_str (http_post h prompt) with
      | Some v => (Ok (PDict (normal_form v true)), h ++ [prompt])
      | None => resume_only resume_text (h ++ [prompt])
      end
    else resume_only resume_text h.
Proof.
  intros jd prompt H. unfold analyze_resume_with_ai. fold jd.
  destruct jd as [|c r] eqn:Ejd; [congruence|]. cbn [PyStr.nonempty negb].
  unfold bind. fold prompt. rewrite model_attempt_eq.
  destruct (api_key_set API_KEY); [|reflexivity].
  destruct (recovered _ _ _); reflexivity.
Qed.

End AnalyzerFacts.

(* ===================================================================== *)
(** ** Searching and cutting strings *)
(* ===================================================================== *)

Lemma find_range (c : ascii) (s : string) :
  (PyStr.find c s = -1 \/ 0 <= PyStr.find c s)%Z.
Proof.
  induction s as [|a r IH]; simpl; [left; reflexivity|].
  destruct (Ascii.eqb a c); [right; lia|].
  destruct (Z.eqb_spec (PyStr.find c r) (-1)); [left; reflexivity | right; lia].
Qed.



Lemma rfind_absent (c : ascii) (s : string) :
  has_char c s = false -> PyStr.rfind c s = (-1)%Z.
Proof.
  induction s as [|a r IH]; simpl; [reflexivity|].
  intros H. apply orb_false_elim in H as [Ha Hr].
  rewrite Ha, (IH Hr). reflexivity.
Qed.


(** The last occurrence: nothing after it is the character. *)
Lemma rfind_last (c : ascii) (a b : string) :
  has_char c b = false ->
  PyStr.rfind c (a ++ String c b) = Z.of_nat (String.length a).
Proof.
  intros Hb. induction a as [|x a IH]; simpl.
  - rewrite (rfind_absent _ _ Hb), Ascii.eqb_refl. reflexivity.
  - rewrite IH.
    destruct (Z.eqb_spec (Z.of_nat (String.length a)) (-1)); lia.
Qed.



Lemma append_assoc (a b c : string) :
  ((a ++ b) ++ c = a ++ (b ++ c))%string.
Proof. induction a; simpl; congruence. Qed.

Lemma length_append (a b : string) :
  String.length (a ++ b) = String.length a + String.length b.
Proof. induction a; simpl; congruence. Qed.

(** Two ways of cutting one string: the longer prefix extends the
    shorter. *)
Lemma append_split (a1 a2 x y : string) :
  (a1 ++ x = a2 ++ y)%string ->
  String.length a1 <= String.length a2 ->
  exists m, a2 = (a1 ++ m)%string /\ x = (m ++ y)%string.
Proof.
  revert a2. induction a1 as [|c a1 IH]; intros a2 H Hlen; simpl in *.
  - exists a2. split; [reflexivity | exact H].
  - destruct a2 as [|c2 a2]; simpl in *; [lia|].
    injection H as -> H.
    destruct (IH a2 H) as (m & -> & ->); [lia|].
    exists m. split; reflexivity.
Qed.


Lemma substring_prefix (m b : string) :
  substring 0 (String.length m) (m ++ b) = m.
Proof. induction m; simpl; [destruct b; reflexivity | congruence]. Qed.





(* ===================================================================== *)
(** ** The properties the specification states *)
(* ===================================================================== *)

(** C1 (JD-absence rule).  With [jd_present = false] the normaliser
    returns, for every input, a report whose [missing_keywords] and
    [skills_relevance.missing] are the empty list and whose
    [extracted.position] is the empty string, whatever the input held in
    those places; hence every report [analyze_resume_with_ai] returns for
    a job description that is absent, empty or blank has the three
    values. *)
Theorem jd_absence_invariant :
  (forall x : pyval,
      exists r, _merge_defaults x false = Ok r /\ jd_absence_rule r)
  /\
  (forall json_loads py_str API_KEY http_post resume_text job_description h,
      PyStr.strip (match job_description with Some s => s | None => "" end)
      = "" ->
      exists r h',
        analyze_resume_with_ai json_loads py_str API_KEY http_post
          resume_text job_description h = (Ok r, h')
        /\ jd_absence_rule r).
Proof.
  split.
  - intros x. exists (PDict (normal_form x false)). split.
    + apply merge_defaults_eq.
    + apply normal_form_jd_absent.
  - intros json_loads py_str API_KEY http_post resume_text jd h Hjd.
    rewrite analyze_no_jd by exact Hjd. rewrite resume_only_eq. cbv zeta.
    destruct (api_key_set API_KEY).
    + destruct (recovered json_loads py_str _) as [v|];
        eexists; eexists; (split; [reflexivity|]).
      * apply normal_form_jd_absent.
      * apply fallback_jd_absent.
    + eexists; eexists; split; [reflexivity | apply fallback_jd_absent].
Qed.

Lemma jd_absence_invariant_witness :
  exists r h',
    analyze_resume_with_ai Ref.json_loads Ref.str (Some "key")
      (service_saying
         (PyStr.requote
            "{'score': 70, 'missing_keywords': ['Kubernetes'], 'extracted': {'position': 'SRE'}}"))
      "Python developer" (Some "   ") [] = (Ok r, h')
    /\ jd_absence_rule r.
Proof.
  apply (proj2 jd_absence_invariant Ref.json_loads Ref.str (Some "key")).
  reflexivity.
Defined.

Example jd_absence_run :
  fst (analyze_resume_with_ai Ref.json_loads Ref.str (Some "key")
         (service_saying
            (PyStr.requote
               "{'score': 70, 'missing_keywords': ['Kubernetes'], 'extracted': {'position': 'SRE'}}"))
         "Python developer" None [])
  = Ok (PDict
      [ ("score", PInt 70);
        ("missing_keywords", PList []);
        ("extracted",
          PDict [ ("position", PStr ""); ("name", PStr "");
                  ("email", PStr ""); ("experience", PStr "Fresher");
                  ("skills", PList []) ]);
        ("matched_keywords", PList []);
        ("formatting_issues", PList []);
        ("suggestions", PList []);
        ("strengths", PList []);
        ("grammatical_errors", PList []);
        ("professional_tone", PStr "");
        ("unnecessary_info", PList []);
        ("experience_relevance", PStr "");
        ("skills_relevance", PDict skills_relevance_defaults) ]).
Proof. vm_compute. reflexivity. Qed.

(** C2 (totality).  The normaliser maps every input, [None] and values
    that are not dictionaries included, to a report that has every field
    of the schema; and for every resume text and every job description,
    given or not, [analyze_resume_with_ai] returns such a report and does
    not raise, whatever the credential, the service and the decoder do. *)
Theorem analyze_total :
  (forall (x : pyval) (jd_present : bool),
      exists r, _merge_defaults x jd_present = Ok r
                /\ schema_complete r = true)
  /\
  (forall json_loads py_str API_KEY http_post resume_text job_description h,
      exists r h',
        analyze_resume_with_ai json_loads py_str API_KEY http_post
          resume_text job_description h = (Ok r, h')
        /\ schema_complete r = true).
Proof.
  assert (Hro : forall json_loads py_str API_KEY http_post resume_text h,
      exists r h',
        _analyze_resume_only json_loads py_str API_KEY http_post
          resume_text h = (Ok r, h')
        /\ schema_complete r = true).
  { intros. rewrite resume_only_eq. cbv zeta.
    destruct (api_key_set API_KEY).
    - destruct (recovered json_loads py_str _) as [v|];
        eexists; eexists; (split; [reflexivity|]).
      + apply normal_form_complete.
      + apply fallback_complete.
    - eexists; eexists; split; [reflexivity | apply fallback_complete]. }
  split.
  - intros x jd. exists (PDict (normal_form x jd)). split.
    + apply merge_defaults_eq.
    + apply normal_form_complete.
  - intros json_loads py_str API_KEY http_post resume_text jd h.
    destruct (PyStr.strip (match jd with Some s => s | None => "" end))
      as [|c s] eqn:Ejd.
    + rewrite analyze_no_jd by exact Ejd. apply Hro.
    + pose proof (analyze_with_jd json_loads py_str API_KEY http_post
                    resume_text jd h) as H.
      cbv zeta in H. rewrite Ejd in H. rewrite H by discriminate.
      destruct (api_key_set API_KEY); [|apply Hro].
      destruct (recovered json_loads py_str _) as [v|]; [|apply Hro].
      eexists; eexists; split; [reflexivity | apply normal_form_complete].
Qed.

(** C6 (idempotence).  Normalising a normalised report with the same
    [jd_present] returns it unchanged. *)
Theorem merge_defaults_idempotent (x : pyval) (jd_present : bool) :
  exists r, _merge_defaults x jd_present = Ok r
            /\ _merge_defaults r jd_present = Ok r.
Proof.
  exists (PDict (normal_form x jd_present)). split.
  - apply merge_defaults_eq.
  - rewrite merge_defaults_eq. f_equal. f_equal.
    apply normal_form_fixed.
    + apply normal_form_complete.
    + intros ->. apply normal_form_jd_absent.
Qed.

Lemma normal_form_score (x : pyval) (jd_present : bool) :
  item "score" (PDict (normal_form x jd_present))
  = match proposed_score x with Some v => v | None => PInt 50 end.
Proof.
  unfold item, dict_get, normal_form, proposed_score.
  destruct jd_present; dict_norm; rewrite fill_defaults_lookup;
    destruct x as [| | | | | |d]; try reflexivity;
    destruct (dict_lookup "score" d); reflexivity.
Qed.

(** C3, as the code has it.  The normaliser keeps the score the parsed
    object proposes, whatever it is, and neither clamps nor rejects it;
    only when no score is proposed does it put the default 50, and the
    heuristic report carries 55.  So the reports whose score does not come
    from the parsed object have a score from 0 to 100. *)
Theorem score_kept_or_default :
  (forall (x : pyval) (jd_present : bool),
      exists r, _merge_defaults x jd_present = Ok r
                /\ item "score" r
                   = match proposed_score x with
                     | Some v => v
                     | None => PInt 50
                     end)
  /\ (forall (x : pyval) (jd_present : bool) (r : pyval),
         _merge_defaults x jd_present = Ok r ->
         proposed_score x = None -> score_in_range r)
  /\ (forall resume_text : string,
         exists r, _merge_defaults (fallback resume_text) false = Ok r
                   /\ item "score" r = PInt 55 /\ score_in_range r).
Proof.
  repeat split.
  - intros x jd. exists (PDict (normal_form x jd)). split.
    + apply merge_defaults_eq.
    + apply normal_form_score.
  - intros x jd r Hr Hx. rewrite merge_defaults_eq in Hr.
    injection Hr as <-. unfold score_in_range.
    rewrite normal_form_score, Hx. lia.
  - intros rt. exists (fallback rt). split; [apply merge_defaults_fallback|].
    split; [reflexivity|]. unfold score_in_range. simpl. lia.
Qed.

Lemma score_kept_or_default_witness :
  _merge_defaults PNone true = Ok (PDict defaults)
  /\ score_in_range (PDict defaults).
Proof.
  split; [reflexivity|].
  apply (proj1 (proj2 score_kept_or_default) PNone true (PDict defaults));
    reflexivity.
Defined.

(** C3 as the specification states it fails: a proposed score of 150 is
    returned as it is, by the normaliser and by the whole analysis. *)
Lemma score_not_clamped :
  (exists r, _merge_defaults (PDict [("score", PInt 150)]) true = Ok r
             /\ item "score" r = PInt 150 /\ ~ score_in_range r)
  /\ (exists r h,
         analyze_resume_with_ai Ref.json_loads Ref.str (Some "key")
           (service_saying (PyStr.requote "{'score': 150}"))
           "Python developer" (Some "Backend engineer") [] = (Ok r, h)
         /\ item "score" r = PInt 150 /\ ~ score_in_range r).
Proof.
  split.
  - eexists. split; [reflexivity|]. split; [reflexivity|].
    unfold score_in_range. simpl. lia.
  - eexists. eexists. split; [vm_compute; reflexivity|].
    split; [reflexivity|]. unfold score_in_range. simpl. lia.
Qed.







Example fallback_run :
  fallback "Built REST services in Python and SQL,  some React C Docker AWS Java"
  = PDict
      [ ("score", PInt 55);
        ("matched_keywords",
          str_list ["python"; "java"; "react"; "aws"; "docker"]);
        ("missing_keywords", PList []);
        ("formatting_issues", PList []);
        ("suggestions",
          str_list ["Use relevant keywords from job description";
                    "Improve bullet clarity"]);
        ("strengths", str_list ["Education present"; "Projects listed"]);
        ("extracted",
          PDict [ ("name", PStr "");
                  ("email", PStr "");
                  ("position", PStr "");
                  ("experience", PStr "Fresher");
                  ("skills",
                    str_list ["python"; "java"; "react"; "aws"; "docker"]) ]);
        ("grammatical_errors", PList []);
        ("professional_tone", PStr "");
        ("unnecessary_info", PList []);
        ("experience_relevance", PStr "");
        ("skills_relevance",
          PDict [ ("matched", str_list ["python"; "java"; "react"]);
                  ("missing", PList []) ]);
        ("error", PStr "fallback_used") ].
Proof. vm_compute. reflexivity. Qed.










(** C8, as the code has it.  The three behaviours belong to three
    functions.  [extract_any] returns the text ["Unsupported file format"]
    for every path whose extension is neither [.pdf] nor [.docx], and
    touches no file for it.  [extract_text_from_file] returns the empty
    string for every path that does not exist, and also for every existing
    path whose extension is neither [pdf] nor [docx].  The text that
    reports an unreadable document is produced by [extract_text_from_pdf],
    which turns an exception of the reader into a string that starts with
    ["[ERROR extracting PDF] "]; that string is never the empty one.  On
    a PDF their reader cannot read, [extract_text_from_file] and
    [extract_any] raise. *)
Theorem extractor_failure_modes :
  (forall os_path_splitext pypdf2_page_texts docx2txt_process path,
      let ext := PyStr.lower (snd (os_path_splitext path)) in
      ext <> ".pdf" -> ext <> ".docx" ->
      extract_any os_path_splitext pypdf2_page_texts docx2txt_process path
      = Ok "Unsupported file format")
  /\ (forall os_path_exists fitz_pages docx_paragraphs path,
         os_path_exists path = false ->
         extract_text_from_file os_path_exists fitz_pages docx_paragraphs path
         = Ok "")
  /\ (forall os_path_exists fitz_pages docx_paragraphs path,
         let ext := PyStr.lower (last (PyStr.split_on "." path) "") in
         ext <> "pdf" -> ext <> "docx" ->
         extract_text_from_file os_path_exists fitz_pages docx_paragraphs path
         = Ok "")
  /\ (forall pdfminer_extract_text exn_str path e,
         pdfminer_extract_text path = Raise e ->
         extract_text_from_pdf pdfminer_extract_text exn_str path
         = ("[ERROR extracting PDF] " ++ exn_str e)%string
         /\ extract_text_from_pdf pdfminer_extract_text exn_str path <> "")
  /\ (forall os_path_exists fitz_pages docx_paragraphs path e,
         os_path_exists path = true ->
         PyStr.lower (last (PyStr.split_on "." path) "") = "pdf" ->
         fitz_pages path = Raise e ->
         extract_text_from_file os_path_exists fitz_pages docx_paragraphs path
         = Raise e)
  /\ (forall os_path_splitext pypdf2_page_texts docx2txt_process path e,
         PyStr.lower (snd (os_path_splitext path)) = ".pdf" ->
         pypdf2_page_texts path = Raise e ->
         extract_any os_path_splitext pypdf2_page_texts docx2txt_process path
         = Raise e).
Proof.
  split; [|split; [|split; [|split; [|split]]]].
  - intros splitext pypdf docx2txt path ext Hpdf Hdocx.
    unfold extract_any. fold ext.
    destruct (String.eqb_spec ext ".pdf"); [contradiction|].
    unfold PyStr.mem. cbn [existsb].
    destruct (String.eqb_spec ext ".docx"); [contradiction|].
    reflexivity.
  - intros ex fitz docx path H. unfold extract_text_from_file.
    rewrite H. reflexivity.
  - intros ex fitz docx path ext Hpdf Hdocx.
    unfold extract_text_from_file. fold ext.
    destruct (ex path); [|reflexivity]. cbn [negb].
    destruct (String.eqb_spec ext "pdf"); [contradiction|].
    destruct (String.eqb_spec ext "docx"); [contradiction|].
    reflexivity.
  - intros pdfminer exn_str path e H. unfold extract_text_from_pdf.
    rewrite H. split; [reflexivity | discriminate].
  - intros ex fitz docx path e Hex Hext Hfitz.
    unfold extract_text_from_file. rewrite Hex, Hext, Hfitz. reflexivity.
  - intros splitext pypdf docx2txt path e Hext Hpdf.
    unfold extract_any, extract_pdf. rewrite Hext, Hpdf. reflexivity.
Qed.

Lemma extractor_failure_modes_witness :
  extract_any Ref.splitext unreadable unreadable "notes/resume.txt"
  = Ok "Unsupported file format"
  /\ extract_text_from_file only_two_files unreadable unreadable "gone.pdf"
     = Ok ""
  /\ extract_text_from_file only_two_files unreadable unreadable "resume.txt"
     = Ok ""
  /\ extract_text_from_pdf unreadable exn_name "scan.pdf"
     = "[ERROR extracting PDF] cannot read file"
  /\ extract_text_from_file only_two_files unreadable unreadable "scan.pdf"
     = Raise IOError
  /\ extract_any Ref.splitext unreadable unreadable "gone.pdf"
     = Raise IOError.
Proof.
  split; [|split; [|split; [|split; [|split]]]].
  - apply (proj1 extractor_failure_modes Ref.splitext unreadable unreadable
             "notes/resume.txt");
      vm_compute; discriminate.
  - apply (proj1 (proj2 extractor_failure_modes) only_two_files unreadable
             unreadable "gone.pdf").
    reflexivity.
  - apply (proj1 (proj2 (proj2 extractor_failure_modes)) only_two_files
             unreadable unreadable "resume.txt");
      vm_compute; discriminate.
  - apply (proj1 (proj2 (proj2 (proj2 extractor_failure_modes))) unreadable
             exn_name "scan.pdf" IOError).
    reflexivity.
  - apply (proj1 (proj2 (proj2 (proj2 (proj2 extractor_failure_modes))))
             only_two_files unreadable unreadable "scan.pdf" IOError);
      reflexivity.
  - apply (proj2 (proj2 (proj2 (proj2 (proj2 extractor_failure_modes))))
             Ref.splitext unreadable unreadable "gone.pdf" IOError);
      reflexivity.
Defined.

(** C8 as stated fails.  The extractor that returns the empty string for
    a missing file returns the empty string, not an unsupported-format
    result, for an existing file of another type, and raises on a
    document it cannot read; the extractor that reports an unsupported
    format raises on a missing PDF. *)
Lemma extractor_modes_not_distinguished :
  only_two_files "resume.txt" = true
  /\ extract_text_from_file only_two_files unreadable unreadable "resume.txt"
     = Ok ""
  /\ extract_text_from_file only_two_files unreadable unreadable "resume.txt"
     <> Ok "Unsupported file format"
  /\ extract_text_from_file only_two_files unreadable unreadable "scan.pdf"
     = Raise IOError
  /\ only_two_files "gone.pdf" = false
  /\ extract_any Ref.splitext unreadable unreadable "gone.pdf"
     = Raise IOError.
Proof.
  repeat split; try reflexivity. discriminate.
Qed.

(* ===================================================================== *)
(** ** Stripping *)
(* ===================================================================== *)















(* ===================================================================== *)
(** ** Further properties of the normaliser and of the recovery *)
(* ===================================================================== *)

(** X1.  The reports the normaliser leaves as they are, are exactly the
    dictionaries that have every field of the schema and, when there is
    no job description, already obey the rule for that case. *)
Theorem merge_defaults_fixed_points (d : dict) (jd_present : bool) :
  _merge_defaults (PDict d) jd_present = Ok (PDict d)
  <-> schema_complete (PDict d) = true
      /\ (jd_present = false -> jd_absence_rule (PDict d)).
Proof.
  rewrite merge_defaults_eq. split.
  - intros H. injection H as H. split.
    + rewrite <- H. apply normal_form_complete.
    + intros ->. rewrite <- H. apply normal_form_jd_absent.
  - intros [Hc Hr]. rewrite (normal_form_fixed d jd_present Hc Hr).
    reflexivity.
Qed.

(** X2.  No default overwrites a field the input has: every key of the
    input other than [extracted] and [skills_relevance] keeps its value,
    keys outside the schema included; the one exception is
    [missing_keywords] when there is no job description. *)
Theorem merge_defaults_keeps_fields (d : dict) (jd_present : bool)
  (k : string) (v : pyval) :
  dict_lookup k d = Some v ->
  k <> "extracted" -> k <> "skills_relevance" ->
  jd_present = true \/ k <> "missing_keywords" ->
  exists r, _merge_defaults (PDict d) jd_present = Ok r /\ item k r = v.
Proof.
  intros Hk Hne Hns Hjd. exists (PDict (normal_form (PDict d) jd_present)).
  split; [apply merge_defaults_eq|].
  unfold item, dict_get, normal_form.
  apply String.eqb_neq in Hne. apply String.eqb_neq in Hns.
  destruct jd_present.
  - rewrite !dict_lookup_set, Hne, Hns, !ensure_dict_lookup, Hne, Hns,
      fill_defaults_lookup, Hk. reflexivity.
  - destruct Hjd as [Hjd|Hjd]; [discriminate|].
    apply String.eqb_neq in Hjd.
    rewrite !dict_lookup_set, Hne, Hns, Hjd, !ensure_dict_lookup, Hne, Hns,
      fill_defaults_lookup, Hk. reflexivity.
Qed.

Lemma merge_defaults_keeps_fields_witness :
  exists r,
    _merge_defaults
      (PDict [("score", PInt 88); ("error", PStr "model note")]) false = Ok r
    /\ item "error" r = PStr "model note".
Proof.
  apply (merge_defaults_keeps_fields
           [("score", PInt 88); ("error", PStr "model note")] false "error"
           (PStr "model note")).
  - reflexivity.
  - discriminate.
  - discriminate.
  - right. discriminate.
Defined.

Lemma sub_dict_extracted (d : dict) :
  sub_dict "extracted"
    (ensure_dict "skills_relevance"
       (ensure_dict "extracted" (fill_defaults defaults d)))
  = match dict_lookup "extracted" d with
    | Some (PDict e) => e
    | Some _ => []
    | None => extracted_defaults
    end.
Proof.
  unfold sub_dict at 1. dict_norm. unfold sub_dict.
  rewrite fill_defaults_lookup.
  destruct (dict_lookup "extracted" d) as [[| | | | | |e]|]; reflexivity.
Qed.

Lemma sub_dict_skills_relevance (d : dict) :
  sub_dict "skills_relevance"
    (ensure_dict "skills_relevance"
       (ensure_dict "extracted" (fill_defaults defaults d)))
  = match dict_lookup "skills_relevance" d with
    | Some (PDict e) => e
    | Some _ => []
    | None => skills_relevance_defaults
    end.
Proof.
  unfold sub_dict at 1. dict_norm. unfold sub_dict. dict_norm.
  rewrite fill_defaults_lookup.
  destruct (dict_lookup "skills_relevance" d) as [[| | | | | |e]|];
    reflexivity.
Qed.

(** X3.  Inside [extracted] and [skills_relevance] too, a field the
    input has keeps its value (but for [position] and [missing] when
    there is no job description); when the input has no dictionary under
    one of the two names, whatever it has there is replaced by the
    defaults of that record. *)
Theorem merge_defaults_keeps_nested (d : dict) (jd_present : bool) :
  exists r,
    _merge_defaults (PDict d) jd_present = Ok r
    /\ (forall e sk v,
           dict_lookup "extracted" d = Some (PDict e) ->
           dict_lookup sk e = Some v ->
           jd_present = true \/ sk <> "position" ->
           item sk (item "extracted" r) = v)
    /\ (forall e sk v,
           dict_lookup "skills_relevance" d = Some (PDict e) ->
           dict_lookup sk e = Some v ->
           jd_present = true \/ sk <> "missing" ->
           item sk (item "skills_relevance" r) = v)
    /\ ((forall e, dict_lookup "extracted" d <> Some (PDict e)) ->
        item "extracted" r = PDict extracted_defaults)
    /\ ((forall e, dict_lookup "skills_relevance" d <> Some (PDict e)) ->
        item "skills_relevance" r = PDict skills_relevance_defaults).
Proof.
  exists (PDict (normal_form (PDict d) jd_present)).
  split; [apply merge_defaults_eq|].
  unfold normal_form.
  rewrite sub_dict_extracted, sub_dict_skills_relevance.
  set (d3 := ensure_dict "skills_relevance" _).
  split; [|split; [|split]].
  - intros e sk v He Hsk Hjd. rewrite He.
    unfold item at 2. unfold dict_get.
    destruct jd_present.
    + dict_norm. unfold item, dict_get.
      rewrite fill_defaults_lookup, Hsk. reflexivity.
    + destruct Hjd as [Hjd|Hjd]; [discriminate|].
      apply String.eqb_neq in Hjd.
      dict_norm. unfold item, dict_get.
      rewrite dict_lookup_set, Hjd, fill_defaults_lookup, Hsk. reflexivity.
  - intros e sk v He Hsk Hjd. rewrite He.
    unfold item at 2. unfold dict_get.
    destruct jd_present.
    + dict_norm. unfold item, dict_get.
      rewrite fill_defaults_lookup, Hsk. reflexivity.
    + destruct Hjd as [Hjd|Hjd]; [discriminate|].
      apply String.eqb_neq in Hjd.
      dict_norm. unfold item, dict_get.
      rewrite dict_lookup_set, Hjd, fill_defaults_lookup, Hsk. reflexivity.
  - intros Hno. unfold item, dict_get.
    destruct (dict_lookup "extracted" d) as [[| | | | | |e]|] eqn:He;
      try (exfalso; apply (Hno e); reflexivity);
      destruct jd_present; dict_norm; reflexivity.
  - intros Hno. unfold item, dict_get.
    destruct (dict_lookup "skills_relevance" d) as [[| | | | | |e]|] eqn:He;
      try (exfalso; apply (Hno e); reflexivity);
      destruct jd_present; dict_norm; reflexivity.
Qed.

Lemma merge_defaults_keeps_nested_witness :
  exists r,
    _merge_defaults
      (PDict [("extracted", PDict [("name", PStr "Ann")]);
              ("skills_relevance", PStr "none")]) false = Ok r
    /\ item "name" (item "extracted" r) = PStr "Ann"
    /\ item "skills_relevance" r = PDict skills_relevance_defaults.
Proof.
  destruct (merge_defaults_keeps_nested
              [("extracted", PDict [("name", PStr "Ann")]);
               ("skills_relevance", PStr "none")] false)
    as (r & Hr & He & _ & _ & Hs).
  exists r. split; [exact Hr|]. split.
  - apply (He [("name", PStr "Ann")] "name" (PStr "Ann")).
    + reflexivity.
    + reflexivity.
    + right. discriminate.
  - apply Hs. intros e. discriminate.
Defined.



(* ===================================================================== *)
(** ** Reading the text out of a reply *)
(* ===================================================================== *)

Lemma truthy_not_none (v : pyval) : truthy v = true -> is_none v = false.
Proof. destruct v; simpl; intros H; [discriminate | reflexivity ..]. Qed.

(** What the [try] of [_model_response_to_text] returns early is true in
    Python's sense. *)
Lemma content_of_choices_truthy (response c : pyval) :
  content_of_choices response = Ok (Some c) -> truthy c = true.
Proof.
  unfold content_of_choices.
  destruct (method_get response "choices") as [ch|]; cbn [obind];
    [|discriminate].
  destruct (truthy (py_or ch (PList []))); [|discriminate].
  destruct (first_item (py_or ch (PList []))) as [first|]; cbn [obind];
    [|discriminate].
  destruct (method_get first "message") as [m|]; cbn [obind]; [|discriminate].
  destruct (method_get (py_or m (PDict [])) "content") as [mc|];
    cbn [obind]; [|discriminate].
  destruct (truthy mc) eqn:Hmc; cbn [obind].
  - rewrite Hmc. intros H. injection H as <-. exact Hmc.
  - destruct (method_get first "text") as [t|]; cbn [obind]; [|discriminate].
    destruct (truthy (py_or t (PStr ""))) eqn:Ht; [|discriminate].
    intros H. injection H as <-. exact Ht.
Qed.



(** X6.  The text read out of a reply is never [None], so the first
    test of [_safe_parse_json] never fires in the pipeline; and when the
    text is not a string (the content of the message is a list, a number
    or an object) the recovery raises, and the attempt yields nothing. *)
Theorem response_text_never_none :
  (forall py_str body,
      is_none (_model_response_to_text py_str body) = false)
  /\ (forall json_loads py_str body,
         (forall t, _model_response_to_text py_str body <> PStr t) ->
         recovered json_loads py_str (Some body) = None).
Proof.
  assert (Hnone : forall py_str body,
             is_none (_model_response_to_text py_str body) = false).
  { intros py_str body. unfold _model_response_to_text.
    destruct (content_of_choices body) as [[c|]|] eqn:Hc; cbn [obind].
    - apply truthy_not_none, (content_of_choices_truthy _ _ Hc).
    - destruct (method_get body "output") as [o|]; cbn [obind];
        [|reflexivity].
      destruct (truthy o) eqn:Ho; [apply truthy_not_none, Ho|].
      destruct (method_get body "result") as [r|]; cbn [obind];
        [|reflexivity].
      unfold py_or. destruct (truthy r) eqn:Hr;
        [apply truthy_not_none, Hr | reflexivity].
    - reflexivity. }
  split; [exact Hnone|].
  intros json_loads py_str body Hstr. unfold recovered.
  pose proof (Hnone py_str body) as Hn.
  destruct (_model_response_to_text py_str body) as [| | | |t| |];
    try reflexivity; try discriminate.
  exfalso. apply (Hstr t). reflexivity.
Qed.

Lemma response_text_never_none_witness :
  recovered Ref.json_loads Ref.str
    (Some (PDict [("choices",
                   PList [PDict [("message",
                                   PDict [("content",
                                            PList [PStr "part"])])]])]))
  = None.
Proof.
  apply (proj2 response_text_never_none Ref.json_loads Ref.str).
  intros t. vm_compute. discriminate.
Defined.



(* ===================================================================== *)
(** ** The heuristic report and the prompts *)
(* ===================================================================== *)






Lemma append_cancel_l (a x y : string) :
  (a ++ x = a ++ y)%string -> x = y.
Proof. induction a; simpl; intros H; [exact H | injection H as H; auto]. Qed.

Lemma append_cancel_r (x y b : string) :
  (x ++ b = y ++ b)%string -> x = y.
Proof.
  intros H.
  assert (Hlen : String.length x = String.length y).
  { apply (f_equal String.length) in H. rewrite !length_append in H. lia. }
  destruct (append_split x y b b H) as (m & -> & Hm); [lia|].
  rewrite length_append in Hlen.
  destruct m; [|simpl in Hlen; lia].
  clear. induction x; simpl; congruence.
Qed.

(** Two different pairs of resume and job description with one and the
    same prompt. *)
Lemma jd_prompt_ambiguous :
  build_resume_jd_prompt
    ("Ann" ++ PyStr.newline ++ PyStr.newline ++ "JOB DESCRIPTION:"
     ++ PyStr.newline ++ "Bob") "Cook"
  = build_resume_jd_prompt "Ann"
      ("Bob" ++ PyStr.newline ++ PyStr.newline ++ "JOB DESCRIPTION:"
       ++ PyStr.newline ++ "Cook").
Proof. vm_compute. reflexivity. Qed.

(** X9.  Different resume texts give different resume-only prompts, and
    the prompt with a job description determines each of its two texts
    once the other is known; but it does not determine the pair: a
    resume that contains the heading of the job-description part gives
    the prompt of another pair. *)
Theorem prompts_injective :
  (forall r1 r2,
      build_resume_only_prompt r1 = build_resume_only_prompt r2 -> r1 = r2)
  /\ (forall r jd1 jd2,
         build_resume_jd_prompt r jd1 = build_resume_jd_prompt r jd2 ->
         jd1 = jd2)
  /\ (forall r1 r2 jd,
         build_resume_jd_prompt r1 jd = build_resume_jd_prompt r2 jd ->
         r1 = r2)
  /\ (exists r1 jd1 r2 jd2,
         r1 <> r2
         /\ PyStr.strip jd1 = jd1 /\ PyStr.strip jd2 = jd2
         /\ build_resume_jd_prompt r1 jd1 = build_resume_jd_prompt r2 jd2).
Proof.
  split; [|split; [|split]].
  - intros r1 r2 H. unfold build_resume_only_prompt in H.
    do 3 apply append_cancel_l in H. apply append_cancel_r in H. exact H.
  - intros r jd1 jd2 H. unfold build_resume_jd_prompt in H.
    do 5 apply append_cancel_l in H. apply append_cancel_r in H. exact H.
  - intros r1 r2 jd H. unfold build_resume_jd_prompt in H.
    do 3 apply append_cancel_l in H. apply append_cancel_r in H. exact H.
  - exists ("Ann" ++ PyStr.newline ++ PyStr.newline ++ "JOB DESCRIPTION:"
            ++ PyStr.newline ++ "Bob")%string, "Cook", "Ann",
      ("Bob" ++ PyStr.newline ++ PyStr.newline ++ "JOB DESCRIPTION:"
       ++ PyStr.newline ++ "Cook")%string.
    split; [vm_compute; discriminate|].
    split; [vm_compute; reflexivity|].
    split; [vm_compute; reflexivity|].
    apply jd_prompt_ambiguous.
Qed.

Lemma prompts_injective_witness :
  "same text" = "same text".
Proof.
  apply (proj1 prompts_injective "same text" "same text"). reflexivity.
Defined.

(* ===================================================================== *)
(** ** What the extractors return *)
(* ===================================================================== *)

Lemma newline_space : all_space PyStr.newline = true.
Proof. reflexivity. Qed.







(* ===================================================================== *)
(** ** The upload route *)
(* ===================================================================== *)

(** The analysis returns, and returns a report with every field. *)
Lemma analyze_returns_report json_loads py_str API_KEY http_post
  (resume_text : string) (job_description : option string) (h : list string) :
  exists d h',
    analyze_resume_with_ai json_loads py_str API_KEY http_post
      resume_text job_description h = (Ok (PDict d), h')
    /\ schema_complete (PDict d) = true.
Proof.
  assert (Hro : forall h0,
             exists d h',
               _analyze_resume_only json_loads py_str API_KEY http_post
                 resume_text h0 = (Ok (PDict d), h')
               /\ schema_complete (PDict d) = true).
  { intros h0. rewrite resume_only_eq. cbv zeta.
    destruct (api_key_set API_KEY).
    - destruct (recovered json_loads py_str _) as [v|].
      + eexists. eexists. split; [reflexivity | apply normal_form_complete].
      + unfold fallback. eexists. eexists.
        split; [reflexivity | reflexivity].
    - unfold fallback. eexists. eexists. split; reflexivity. }
  destruct (PyStr.strip (match job_description with
                         | Some s => s
                         | None => ""
                         end)) as [|c s] eqn:Ejd.
  - rewrite analyze_no_jd by exact Ejd. apply Hro.
  - pose proof (analyze_with_jd json_loads py_str API_KEY http_post
                  resume_text job_description h) as H.
    cbv zeta in H. rewrite Ejd in H. rewrite H by discriminate.
    destruct (api_key_set API_KEY); [|apply Hro].
    destruct (recovered json_loads py_str _) as [v|]; [|apply Hro].
    eexists. eexists. split; [reflexivity | apply normal_form_complete].
Qed.














(** X15.  The database does not shape the answer: the route answers the
    same whether the write succeeds or fails.  When it answers with a
    report and the write succeeds, exactly one document is stored, under
    the identifier of the answer, holding that identifier, the report of
    the answer and the report's score; when the write fails nothing is
    stored. *)
Theorem route_persistence :
  forall json_loads py_str API_KEY http_post fitz_read docx_read
         import_extract_any exn_str http_exn_str uuid4 utcnow
         filename content job_description userId (w : world),
    let route := fun firestore_set =>
      Main.ats_analyze json_loads py_str API_KEY http_post
        fitz_read docx_read import_extract_any exn_str http_exn_str
        uuid4 utcnow firestore_set
        filename content job_description userId w in
    (forall f g, fst (route f) = fst (route g))
    /\ (forall f, (forall doc, exists e, f uuid4 doc = Raise e) ->
                  stored (snd (route f)) = stored w)
    /\ (forall f body,
           (forall doc, exists u, f uuid4 doc = Ok u) ->
           fst (route f) = Returned body ->
           exists doc,
             stored (snd (route f)) = stored w ++ [(uuid4, doc)]
             /\ item "id" doc = item "id" body
             /\ item "result" doc = item "result" body
             /\ item "score" doc = item "score" (item "result" body)
             /\ item "userId" doc = PStr userId).
Proof.
  intros. subst route. cbv beta. unfold Main.ats_analyze.
  destruct (Main.route_extract _ _ _ _ _ _) as [text|e].
  - set (resume_text := if (String.length text <? 50)%nat
                        then unreadable_text else text).
    destruct (analyze_returns_report json_loads py_str API_KEY http_post
                resume_text (Some job_description) (requests w))
      as (d & h' & Hrun & Hc).
    rewrite Hrun. cbn [fst snd method_get_default].
    split; [reflexivity|]. split.
    + intros f Hf.
      destruct (Hf (PDict
                      [("id", PStr uuid4); ("userId", PStr userId);
                       ("score", match dict_lookup "score" d with
                                 | Some v => v
                                 | None => PInt 0
                                 end);
                       ("createdAt", utcnow); ("result", PDict d)]))
        as [e He].
      rewrite He. reflexivity.
    + intros f body Hf Hbody. injection Hbody as <-.
      eexists. split.
      * match goal with
        | |- context [f uuid4 ?doc] => destruct (Hf doc) as [u Hu]; rewrite Hu
        end.
        reflexivity.
      * assert (Hs : exists v, dict_lookup "score" d = Some v).
        { apply dict_has_lookup. unfold schema_complete in Hc.
          apply andb_prop in Hc as [Hc _]. apply andb_prop in Hc as [Hc _].
          apply (proj1 (has_all_In _ _) Hc). simpl. tauto. }
        destruct Hs as [v Hv].
        cbn [item dict_get dict_lookup String.eqb Ascii.eqb Bool.eqb].
        unfold dict_get. rewrite Hv. repeat split.
  - cbn [fst snd stored].
    split; [reflexivity|]. split; [reflexivity|].
    intros f body _ H. discriminate.
Qed.

(* ===================================================================== *)
(** ** The job matcher *)
(* ===================================================================== *)





Lemma display_name_of_ok (d : dict) (k : string) :
  named_or_absent d k = true ->
  display_name_of (PDict d) k = Ok (display_name (PDict d) k).
Proof.
  unfold named_or_absent, display_name_of, display_name, item.
  cbn [method_get method_get_default obind]. intros Hk.
  destruct (truthy (dict_get k d)) eqn:Ht; [|reflexivity].
  cbn [negb orb] in Hk. unfold dict_get in *.
  destruct (dict_lookup k d) as [v|]; [|discriminate].
  destruct v; try discriminate. reflexivity.
Qed.

Lemma display_name_of_bad (d : dict) (k : string) :
  named_or_absent d k = false ->
  display_name_of (PDict d) k = Raise AttributeError.
Proof.
  unfold named_or_absent, display_name_of.
  cbn [method_get method_get_default obind]. intros Hk.
  apply orb_false_elim in Hk as [Ht Hd].
  apply negb_false_iff in Ht. rewrite Ht. unfold dict_get in *.
  destruct (dict_lookup k d) as [v|]; [|discriminate].
  destruct v; try discriminate; reflexivity.
Qed.

Lemma job_entry_ok (d : dict) :
  entry_ok (PDict d) = true ->
  exists job, job_entry (PDict d) = Ok job /\ job_matches (PDict d) job.
Proof.
  unfold entry_ok. intros H. apply andb_prop in H as [Hc Hl].
  unfold job_entry.
  rewrite (display_name_of_ok d "company" Hc),
    (display_name_of_ok d "location" Hl).
  cbn [method_get obind].
  eexists. split; [reflexivity|].
  unfold job_matches. split; [eexists; split; reflexivity|].
  split.
  - intros k Hk. simpl in Hk.
    repeat (destruct Hk as [<-|Hk]; [reflexivity|]). contradiction.
  - split; reflexivity.
Qed.

Lemma job_entry_bad (j : pyval) :
  entry_ok j = false -> exists e, job_entry j = Raise e.
Proof.
  destruct j as [| | | | | |d]; try (intros _; eexists; reflexivity).
  unfold entry_ok. intros H. unfold job_entry.
  cbn [method_get obind].
  apply andb_false_iff in H as [H|H].
  - rewrite (display_name_of_bad d "company" H). eexists. reflexivity.
  - rewrite (display_name_of_bad d "location" H).
    destruct (display_name_of (PDict d) "company"); eexists; reflexivity.
Qed.

Lemma jobs_loop_ok (entries : list pyval) (acc : list pyval) :
  forallb entry_ok entries = true ->
  exists jobs, jobs_loop acc entries = Ok (acc ++ jobs)
               /\ Forall2 job_matches entries jobs.
Proof.
  revert acc. induction entries as [|j rest IH]; intros acc H.
  - exists []. rewrite app_nil_r. split; [reflexivity | constructor].
  - cbn [forallb] in H. apply andb_prop in H as [Hj Hrest].
    destruct j as [| | | | | |d]; try discriminate.
    destruct (job_entry_ok d Hj) as (job & Hjob & Hm).
    cbn [jobs_loop]. rewrite Hjob. cbn [obind].
    destruct (IH (acc ++ [job]) Hrest) as (jobs & Hloop & Hall).
    exists (job :: jobs). rewrite Hloop, <- app_assoc. split; [reflexivity|].
    constructor; assumption.
Qed.

Lemma jobs_loop_bad (entries : list pyval) (acc : list pyval) :
  forallb entry_ok entries = false ->
  exists e, jobs_loop acc entries = Raise e.
Proof.
  revert acc. induction entries as [|j rest IH]; intros acc H;
    [discriminate|].
  cbn [forallb] in H. cbn [jobs_loop].
  destruct (entry_ok j) eqn:Hj.
  - destruct j as [| | | | | |d]; try discriminate.
    destruct (job_entry_ok d Hj) as (job & -> & _). cbn [obind].
    apply IH. exact H.
  - destruct (job_entry_bad j Hj) as [e ->]. exists e. reflexivity.
Qed.

(** X17.  The job search.  When the reply is a dictionary whose
    [results] is a list, the call returns one dictionary for each entry,
    in order, each with the eight fields and nothing else (a field the
    entry lacks is [None]; [company] and [location] are the
    [display_name] of the entry's records), exactly when every entry is
    a dictionary whose [company] and [location] are dictionaries or
    absent; one entry that is not makes the whole call raise.  A reply
    without [results] gives the empty list, and a failed request
    raises. *)
Theorem fetch_adzuna_jobs_shape :
  forall ADZUNA_APP_ID ADZUNA_APP_KEY http_get job_title location page
         results_per_page,
    let fetch := JobMatcher.fetch_adzuna_jobs ADZUNA_APP_ID ADZUNA_APP_KEY
                   http_get job_title location page results_per_page in
    let url := ("https://api.adzuna.com/v1/api/jobs/in/search/"
                ++ Ref.str_of_Z page)%string in
    let params := [ ("app_id", ADZUNA_APP_ID);
                    ("app_key", ADZUNA_APP_KEY);
                    ("what", job_title);
                    ("where", location);
                    ("results_per_page", PInt results_per_page) ] in
    (http_get url params = None -> fetch = Raise RequestException)
    /\ (forall data,
           http_get url params = Some (PDict data) ->
           dict_lookup "results" data = None -> fetch = Ok [])
    /\ (forall data entries,
           http_get url params = Some (PDict data) ->
           dict_lookup "results" data = Some (PList entries) ->
           (forallb entry_ok entries = true ->
            exists jobs, fetch = Ok jobs
                         /\ length jobs = length entries
                         /\ Forall2 job_matches entries jobs)
           /\ (forallb entry_ok entries = false ->
               exists e, fetch = Raise e)).
Proof.
  intros. subst fetch. unfold JobMatcher.fetch_adzuna_jobs. cbv zeta.
  change ("https://api.adzuna.com/v1/api/jobs/" ++ "in" ++ "/search/"
          ++ Ref.str_of_Z page)%string with url.
  fold params.
  split; [|split].
  - intros H. rewrite H. reflexivity.
  - intros data Hget Hres. rewrite Hget.
    unfold method_get_default. rewrite Hres. reflexivity.
  - intros data entries Hget Hres. rewrite Hget.
    unfold method_get_default. rewrite Hres. cbn [obind py_iter].
    split.
    + intros Hok. destruct (jobs_loop_ok entries [] Hok) as (jobs & Hl & Hall).
      exists jobs. split; [exact Hl|]. split; [|exact Hall].
      symmetry. apply (Forall2_length Hall).
    + intros Hbad. apply jobs_loop_bad, Hbad.
Qed.

Lemma fetch_adzuna_jobs_shape_witness :
  exists jobs,
    JobMatcher.fetch_adzuna_jobs (PStr "id") (PStr "key")
      (fun _ _ =>
         Some (PDict
                 [("results",
                   PList [PDict [("title", PStr "Developer");
                                 ("company",
                                   PDict [("display_name", PStr "ACME")])]])]))
      (PStr "developer") (PStr "Pune") 1 10 = Ok jobs
    /\ length jobs = 1
    /\ Forall2 job_matches
         [PDict [("title", PStr "Developer");
                 ("company", PDict [("display_name", PStr "ACME")])]]
         jobs.
Proof.
  apply (proj1
           (proj2 (proj2
              (fetch_adzuna_jobs_shape (PStr "id") (PStr "key")
                 (fun _ _ =>
                    Some (PDict
                            [("results",
                              PList [PDict [("title", PStr "Developer");
                                            ("company",
                                              PDict [("display_name",
                                                       PStr "ACME")])]])]))
                 (PStr "developer") (PStr "Pune") 1%Z 10%Z))
              _ _ eq_refl eq_refl)).
  reflexivity.
Defined.



(* ===================================================================== *)
(** ** The recommendation route and the stand-in analyser *)
(* ===================================================================== *)






Lemma regex_search_none (t : string) :
  has_char "{" t = false -> has_char "[" t = false -> regex_search t = None.
Proof.
  induction t as [|c t IH]; [reflexivity|]. simpl. intros H1 H2.
  apply orb_false_elim in H1 as [Hc1 Ht1].
  apply orb_false_elim in H2 as [Hc2 Ht2].
  rewrite Hc1, Hc2. simpl. apply IH; assumption.
Qed.

Lemma has_char_app (c : ascii) (a b : string) :
  has_char c (a ++ b) = has_char c a || has_char c b.
Proof.
  induction a as [|x a IH]; simpl; [reflexivity|].
  rewrite IH, orb_assoc. reflexivity.
Qed.

Lemma upto_last_closing (c : ascii) (m b : string) :
  has_char c b = false ->
  upto_last c (m ++ String c b) = (m ++ String c EmptyString)%string.
Proof.
  intros Hb. unfold upto_last, PyStr.slice.
  rewrite (rfind_last _ _ _ Hb).
  change (Z.to_nat 0) with 0.
  replace (Z.to_nat (Z.of_nat (String.length m) + 1 - 0))
    with (String.length (m ++ String c EmptyString))
    by (rewrite length_append; simpl; lia).
  replace (m ++ String c b)%string
    with ((m ++ String c EmptyString) ++ b)%string
    by (rewrite append_assoc; reflexivity).
  apply substring_prefix.
Qed.

(** The search finds the object that starts at the first opening brace
    and ends at the last closing one, when no square bracket comes
    first. *)
Lemma regex_search_object (a m b : string) :
  has_char "{" a = false -> has_char "[" a = false ->
  has_char "}" b = false ->
  regex_search (a ++ String "{" (m ++ String "}" b))
  = Some (String "{" (m ++ String "}" EmptyString)).
Proof.
  intros Ha1 Ha2 Hb. induction a as [|x a IH].
  - cbn [append regex_search]. rewrite Ascii.eqb_refl.
    rewrite has_char_app. cbn [has_char]. rewrite Ascii.eqb_refl.
    rewrite orb_true_r. cbn [andb orb].
    rewrite (upto_last_closing _ _ _ Hb). reflexivity.
  - cbn [has_char] in Ha1, Ha2.
    apply orb_false_elim in Ha1 as [Hx1 Ha1].
    apply orb_false_elim in Ha2 as [Hx2 Ha2].
    cbn [append regex_search]. rewrite Hx1, Hx2. cbn [andb].
    apply IH; assumption.
Qed.

Lemma regex_search_array (m : string) :
  regex_search (String "[" (m ++ String "]" EmptyString))
  = Some (String "[" (m ++ String "]" EmptyString)).
Proof.
  cbn [regex_search]. cbn [Ascii.eqb Bool.eqb andb].
  rewrite has_char_app. cbn [has_char]. rewrite Ascii.eqb_refl.
  rewrite orb_true_r. cbn [andb orb].
  rewrite (upto_last_closing "]" m EmptyString eq_refl). reflexivity.
Qed.

(** X20.  What the recommendation route makes of the reply's text.  A
    text without a brace or a bracket is handed back raw with the whole
    reply.  A text that is one JSON object gives its [recommendations],
    or the object itself when it has none.  A text that is one JSON
    array, which the pattern of the route looks for, ends in status 500:
    a list has no [get].  A text that is not a string ends in status
    500 as well. *)
Theorem recommendations_of_reply :
  forall json_loads py_str exn_str json_error_str (resp : pyval),
    (forall t,
        Recommend.text_out_of py_str resp = PStr t ->
        has_char "{" t = false -> has_char "[" t = false ->
        Recommend.recommendations_of json_loads py_str exn_str json_error_str
          resp
        = Returned (PDict [("raw", PStr t); ("full_response", resp)]))
    /\ (forall m d,
           Recommend.text_out_of py_str resp
           = PStr (String "{" (m ++ String "}" EmptyString)) ->
           json_loads (String "{" (m ++ String "}" EmptyString))
           = Some (PDict d) ->
           Recommend.recommendations_of json_loads py_str exn_str
             json_error_str resp
           = Returned (PDict [("recommendations",
                               match dict_lookup "recommendations" d with
                               | Some v => v
                               | None => PDict d
                               end)]))
    /\ (forall m l,
           Recommend.text_out_of py_str resp
           = PStr (String "[" (m ++ String "]" EmptyString)) ->
           json_loads (String "[" (m ++ String "]" EmptyString))
           = Some (PList l) ->
           Recommend.recommendations_of json_loads py_str exn_str
             json_error_str resp
           = Failed (HTTPException 500 (exn_str AttributeError)))
    /\ ((forall t, Recommend.text_out_of py_str resp <> PStr t) ->
        Recommend.recommendations_of json_loads py_str exn_str
          json_error_str resp
        = Failed (HTTPException 500 (exn_str TypeError))).
Proof.
  intros. unfold Recommend.recommendations_of.
  split; [|split; [|split]].
  - intros t Ht H1 H2. rewrite Ht, (regex_search_none t H1 H2). reflexivity.
  - intros m d Ht Hl. rewrite Ht.
    pose proof (regex_search_object EmptyString m EmptyString eq_refl eq_refl
                  eq_refl) as Hr.
    cbn [append] in Hr. rewrite Hr, Hl. reflexivity.
  - intros m l Ht Hl. rewrite Ht, regex_search_array, Hl. reflexivity.
  - intros Hno. destruct (Recommend.text_out_of py_str resp) eqn:E;
      try reflexivity.
    exfalso. apply (Hno s). reflexivity.
Qed.

Lemma recommendations_of_reply_witness :
  Recommend.recommendations_of Ref.json_loads Ref.str exn_name
    (fun _ => "bad json") (chat_reply "[1, 2]")
  = Failed (HTTPException 500 "attribute error")
  /\ Recommend.recommendations_of Ref.json_loads Ref.str exn_name
       (fun _ => "bad json") (chat_reply "no list today")
     = Returned (PDict [("raw", PStr "no list today");
                        ("full_response", chat_reply "no list today")]).
Proof.
  pose proof (recommendations_of_reply Ref.json_loads Ref.str exn_name
                (fun _ => "bad json") (chat_reply "[1, 2]"))
    as (_ & _ & Harr & _).
  pose proof (recommendations_of_reply Ref.json_loads Ref.str exn_name
                (fun _ => "bad json") (chat_reply "no list today"))
    as (Hraw & _).
  split.
  - apply (Harr "1, 2" [PInt 1; PInt 2]); reflexivity.
  - apply (Hraw "no list today"); reflexivity.
Defined.






